(** * Shallow embedding of [app.py]: the Flask facade over the Shioaji session

    The three handlers ([login], [fetch_all], [quote]) are modelled as functions
    over the process-wide globals ([api], [contract_cache]) of the module.  The
    Shioaji SDK is an external collaborator: a session is a record of its
    observable behaviour (quota usage, contract directories, snapshot answers),
    and every SDK call either returns a value or raises ([outcome]).  The
    side effects that matter for the endpoints (quota and memory reads,
    accesses to [api.Contracts], snapshot calls, sleeps) are recorded in an
    effect trace, in program order.  Logging is not modelled.

    [contract_cache] is a Python [dict]: insertion-ordered, an assignment to a
    present key keeps its position.  It is modelled as an association list
    with exactly that update rule, because [fetch_all] reads it back in
    iteration order. *)

From Stdlib Require Import String Ascii List ZArith Bool Lia.
Import ListNotations.
Open Scope string_scope.
Open Scope list_scope.
Open Scope Z_scope.

Local Notation "a +s+ b" := (String.append a b) (at level 60, right associativity).

(** ** Python values *)

(** Result of an SDK call: a value, or an exception with its [str(e)]. *)
Inductive outcome (A : Type) : Type :=
| Ok (a : A)
| Raised (msg : string).
Arguments Ok {A} a.
Arguments Raised {A} msg.

(** A contract handle of the SDK.  [c_id] is the object identity; a missing
    [code] / [category] attribute ([hasattr] false) is [None]. *)
Record contract := mk_contract {
  c_id : nat;
  c_code : option string;
  c_category : option string
}.

(** A snapshot returned by [api.snapshots]; a missing attribute is [None]. *)
Record snapshot := mk_snapshot {
  q_code : string;
  q_close : option Z;
  q_ts : option Z
}.

(** Values stored in [contract_cache]: contract handles under [<kind>_<code>],
    market labels under [<kind>_<code>_market]. *)
Inductive cval :=
| VContract (c : contract)
| VStr (s : string).

Definition cache := list (string * cval).

(** [d[k]] *)
Fixpoint dict_get (d : cache) (k : string) : option cval :=
  match d with
  | [] => None
  | (k', v) :: d' => if String.eqb k' k then Some v else dict_get d' k
  end.

(** [d[k] = v]: overwrite in place, or append a new key at the end. *)
Fixpoint dict_set (d : cache) (k : string) (v : cval) : cache :=
  match d with
  | [] => [(k, v)]
  | (k', v') :: d' =>
      if String.eqb k' k then (k', v) :: d' else (k', v') :: dict_set d' k v
  end.

(** [s.endswith(suffix)] *)
Definition ends_with (suffix s : string) : bool :=
  let n := String.length s in
  let m := String.length suffix in
  (m <=? n)%nat && String.eqb (substring (n - m) m s) suffix.

(** [range(0, stop, step)] for [step > 0]. *)
Definition py_range0 (stop step : nat) : list nat :=
  map (fun j => (j * step)%nat) (seq 0 ((stop + step - 1) / step)).

Definition dquote : ascii := ascii_of_nat 34.
Definition squote : ascii := ascii_of_nat 39.
Definition backslash : ascii := ascii_of_nat 92.

Fixpoint has_char (c : ascii) (s : string) : bool :=
  match s with
  | EmptyString => false
  | String c' s' => Ascii.eqb c c' || has_char c s'
  end.

Definition hex_digit (n : nat) : ascii :=
  ascii_of_nat (if (n <? 10)%nat then (48 + n)%nat else (87 + n)%nat).

(** One character of [repr(s)] whose delimiter is [q]. *)
Definition repr_char (q c : ascii) : string :=
  let n := nat_of_ascii c in
  if Ascii.eqb c backslash then String backslash (String backslash EmptyString)
  else if Ascii.eqb c q then String backslash (String q EmptyString)
  else if (n =? 9)%nat then String backslash (String "t"%char EmptyString)
  else if (n =? 10)%nat then String backslash (String "n"%char EmptyString)
  else if (n =? 13)%nat then String backslash (String "r"%char EmptyString)
  else if (n <? 32)%nat || (n =? 127)%nat then
    String backslash (String "x"%char
      (String (hex_digit (n / 16)) (String (hex_digit (n mod 16)) EmptyString)))
  else String c EmptyString.

Fixpoint repr_body (q : ascii) (s : string) : string :=
  match s with
  | EmptyString => EmptyString
  | String c s' => repr_char q c +s+ repr_body q s'
  end.

(** [repr(s)] for a [str] of ASCII characters (instrument codes and cache
    keys): single quotes, unless [s] contains a single quote and no double
    quote; backslash, the delimiter, tab, newline and carriage return are
    escaped, other control characters are written [\xhh].  It is also
    [str(KeyError(s))]. *)
Definition py_repr (s : string) : string :=
  let q := if has_char squote s && negb (has_char dquote s) then dquote else squote in
  String q (repr_body q s +s+ String q EmptyString).

(** ** The SDK session and the process globals *)

(** [api.Contracts]: the stock venues (OES may be absent: [getattr(..., None)]),
    futures and options.  [container[code]] finds the contract with that code
    and raises [KeyError] otherwise. *)
Record directory := mk_directory {
  d_TSE : list contract;
  d_OTC : list contract;
  d_OES : option (list contract);
  d_Futures : list contract;
  d_Options : list contract
}.

Fixpoint getitem (container : list contract) (code : string) : option contract :=
  match container with
  | [] => None
  | c :: rest =>
      match c_code c with
      | Some k => if String.eqb k code then Some c else getitem rest code
      | None => getitem rest code
      end
  end.

(** A live [sj.Shioaji] instance.  [s_usage] answers [api.usage()] with
    [(usage.bytes, usage.limit_bytes)]; [s_snapshots n batch] answers the
    [n]-th [api.snapshots(batch)] call of a request. *)
Record session := mk_session {
  s_id : nat;
  s_usage : outcome (Z * Z);
  s_contracts : directory;
  s_snapshots : nat -> list cval -> outcome (list snapshot)
}.

(** The module globals [api] and [contract_cache]. *)
Record world := mk_world {
  api : option session;
  contract_cache : cache
}.

(** Observable side effects of a request. *)
Inductive event :=
| EvUsage                       (** [api.usage()] *)
| EvMemory                      (** [psutil.Process().memory_info()] *)
| EvContracts                   (** an access to [api.Contracts] *)
| EvSnapshot (batch : list cval)  (** [api.snapshots(batch)] *)
| EvSleep (seconds : nat).      (** [time.sleep(seconds)] *)

(** One element of the [quotes] list built by [fetch_all]. *)
Record quote_rec := mk_quote_rec {
  r_code : string;
  r_market : cval;
  r_price : option Z;
  r_timestamp : option Z
}.

(** The JSON payload of the [body] field of a response. *)
Inductive body :=
| BError (msg : string)
| BLogin (accounts : list string)
| BQuotes (quotes : list quote_rec)
| BQuote (q : snapshot) (market : string) (type_ : string).

Record response := mk_response {
  statusCode : Z;
  rbody : body
}.

(** ** [fetch_all] *)

Definition is_warrant (c : contract) : bool :=
  match c_category c with
  | Some cat => String.eqb cat "Warrant"
  | None => false
  end.

(** Body of [for contract in list(container)] for a stock venue [market]
    (lines 129-137). *)
Definition cache_stock (market : string) (d : cache) (c : contract) : cache :=
  match c_code c with
  | None => d
  | Some code =>
      let cache_key := "stock_" +s+ code in
      let d := dict_set d cache_key (VContract c) in
      let d := dict_set d (cache_key +s+ "_market") (VStr market) in
      if is_warrant c then
        let warrant_key := "warrant_" +s+ code in
        let d := dict_set d warrant_key (VContract c) in
        dict_set d (warrant_key +s+ "_market") (VStr (market +s+ "_Warrant"))
      else d
  end.

(** Body of the futures / options loops (lines 140-149). *)
Definition cache_class (prefix market : string) (d : cache) (c : contract) : cache :=
  match c_code c with
  | None => d
  | Some code =>
      let cache_key := prefix +s+ code in
      let d := dict_set d cache_key (VContract c) in
      dict_set d (cache_key +s+ "_market") (VStr market)
  end.

(** The venue list of line 120: [("TSE", ...), ("OTC", ...), ("OES", getattr(...))]. *)
Definition stock_venues (dir : directory) : list (string * option (list contract)) :=
  [("TSE", Some (d_TSE dir)); ("OTC", Some (d_OTC dir)); ("OES", d_OES dir)].

Definition cache_venue (d : cache) (mc : string * option (list contract)) : cache :=
  match snd mc with
  | None => d                                  (* "{market} not supported" *)
  | Some container => fold_left (cache_stock (fst mc)) container d
  end.

(** Lines 119-149, run on [contract_cache] [d]. *)
Definition populate (dir : directory) (d : cache) : cache :=
  let d := fold_left cache_venue (stock_venues dir) d in
  let d := fold_left (cache_class "futures_" "Futures") (d_Futures dir) d in
  fold_left (cache_class "options_" "Options") (d_Options dir) d.

(** The [api.Contracts] accesses of lines 121, 122, 123, 139 and 145. *)
Definition populate_events : list event :=
  [EvContracts; EvContracts; EvContracts; EvContracts; EvContracts].

(** The two cache entries of a warrant with code [k]: [stock_<k>] with its
    market entry, and the alias [warrant_<k>] with its market entry. *)
Definition warrant_entries (d : cache) (c : contract) (k label warrant_label : string) : Prop :=
  dict_get d ("stock_" +s+ k) = Some (VContract c) /\
  dict_get d (("stock_" +s+ k) +s+ "_market") = Some (VStr label) /\
  dict_get d ("warrant_" +s+ k) = Some (VContract c) /\
  dict_get d (("warrant_" +s+ k) +s+ "_market") = Some (VStr warrant_label).

Definition is_market_key (k : string) : bool := ends_with "_market" k.

(** Line 153: [[v for k, v in contract_cache.items() if not k.endswith("_market")]]. *)
Definition collect_contracts (d : cache) : list cval :=
  map snd (filter (fun kv => negb (is_market_key (fst kv))) d).

(** Line 154: [[contract_cache[k + "_market"] for k, v in ... if not k.endswith("_market")]];
    the first missing key raises [KeyError], whose [str] is the key's [repr]. *)
Fixpoint collect_markets_from (full : cache) (items : cache) : outcome (list cval) :=
  match items with
  | [] => Ok []
  | (k, _) :: rest =>
      if is_market_key k then collect_markets_from full rest
      else
        match dict_get full (k +s+ "_market") with
        | None => Raised (py_repr (k +s+ "_market"))
        | Some m =>
            match collect_markets_from full rest with
            | Raised e => Raised e
            | Ok ms => Ok (m :: ms)
            end
        end
  end.

Definition collect_markets (d : cache) : outcome (list cval) := collect_markets_from d d.

Definition batch_size : nat := 200.

(** One iteration of the loop of lines 159-168, for the start index [i]:
    state = (quotes, trace). *)
Definition batch_step (snap : nat -> list cval -> outcome (list snapshot))
    (contracts : list cval) (st : list snapshot * list event) (i : nat)
    : list snapshot * list event :=
  let '(quotes, tr) := st in
  let batch := firstn batch_size (skipn i contracts) in
  match snap (i / batch_size)%nat batch with
  | Raised _ => (quotes, tr ++ [EvSnapshot batch])          (* continue *)
  | Ok batch_quotes => (quotes ++ batch_quotes, tr ++ [EvSnapshot batch; EvSleep 1])
  end.

Definition batch_query (snap : nat -> list cval -> outcome (list snapshot))
    (contracts : list cval) : list snapshot * list event :=
  fold_left (batch_step snap contracts)
    (py_range0 (length contracts) batch_size) ([], []).

(** Lines 171-178; [markets[i]] out of range raises [IndexError] ([None]). *)
Fixpoint format_quotes (markets : list cval) (i : nat) (qs : list snapshot)
    : option (list quote_rec) :=
  match qs with
  | [] => Some []
  | q :: qs' =>
      match nth_error markets i with
      | None => None
      | Some m =>
          match format_quotes markets (S i) qs' with
          | None => None
          | Some rs => Some (mk_quote_rec (q_code q) m (q_close q) (q_ts q) :: rs)
          end
      end
  end.

(** [usage.bytes > 0.8 * usage.limit_bytes], read over the reals. *)
Definition over_traffic_limit (bytes limit_bytes : Z) : bool :=
  4 * limit_bytes <? 5 * bytes.

(** [mem_info.rss > 12 * 1024**3] *)
Definition over_memory_limit (rss : Z) : bool :=
  12 * 1024 ^ 3 <? rss.

Definition err (code : Z) (msg : string) : response := mk_response code (BError msg).

Definition fetch_all_error (msg : string) : response :=
  err 500 ("Error in fetch_all: " +s+ msg).

(** The [fetch_all] handler; [rss] is the resident memory reported by psutil.
    Returns the new globals, the response and the effect trace. *)
Definition fetch_all (w : world) (rss : Z) : world * response * list event :=
  match api w with
  | None => (w, err 500 "Shioaji API not initialized", [])
  | Some s =>
      match s_usage s with
      | Raised e => (w, fetch_all_error e, [EvUsage])
      | Ok (bytes, limit_bytes) =>
          if over_traffic_limit bytes limit_bytes then
            (w, err 429 "Approaching traffic limit", [EvUsage])
          else if over_memory_limit rss then
            (w, err 429 "High memory usage", [EvUsage; EvMemory])
          else
            let '(d, tr_pop) :=
              match contract_cache w with
              | [] => (populate (s_contracts s) [], populate_events)
              | d => (d, [])
              end in
            let w' := mk_world (api w) d in
            let tr := [EvUsage; EvMemory] ++ tr_pop in
            match collect_markets d with
            | Raised e => (w', fetch_all_error e, tr)
            | Ok markets =>
                let '(quotes, tr_b) := batch_query (s_snapshots s) (collect_contracts d) in
                match format_quotes markets 0 quotes with
                | None => (w', fetch_all_error "list index out of range", tr ++ tr_b)
                | Some result => (w', mk_response 200 (BQuotes result), tr ++ tr_b)
                end
            end
      end
  end.

(** ** [quote] *)

(** The probe loop of lines 208-216: the first venue whose [c[code]] does not
    raise [KeyError] wins; an absent venue ([None]) is skipped. *)
Fixpoint probe (venues : list (string * option (list contract))) (code : string)
    : option (contract * string) :=
  match venues with
  | [] => None
  | (m, None) :: rest => probe rest code
  | (m, Some c) :: rest =>
      match getitem c code with
      | Some contract => Some (contract, m)
      | None => probe rest code
      end
  end.

(** Lines 207-219: the stock lookup with the warrant relabelling. *)
Definition resolve_stock (dir : directory) (code : string) : option (contract * string) :=
  match probe (stock_venues dir) code with
  | None => None
  | Some (contract, market) =>
      if is_warrant contract then Some (contract, market +s+ "_Warrant")
      else Some (contract, market)
  end.

Definition quote_error (msg : string) : response :=
  err 500 ("Error in quote: " +s+ msg).

(** Lines 234-245, once a contract is resolved. *)
Definition quote_snapshot (s : session) (contract : contract) (market type_ : string)
    : response :=
  match s_snapshots s 0 [VContract contract] with
  | Raised e => quote_error e
  | Ok [] => quote_error "list index out of range"
  | Ok (q :: _) =>
      match q_close q, q_ts q with
      | Some _, Some _ => mk_response 200 (BQuote q market type_)
      | None, _ => quote_error "'Snapshot' object has no attribute 'close'"
      | Some _, None => quote_error "'Snapshot' object has no attribute 'ts'"
      end
  end.

(** The [quote] handler; [code] and [type] are the query arguments
    ([request.args.get] gives [None] when absent). *)
Definition quote (w : world) (code_arg type_arg : option string) : response :=
  let type_ := match type_arg with Some t => t | None => "stock" end in
  match code_arg with
  | None | Some "" => err 400 "Missing parameter: code"
  | Some code =>
      match api w with
      | None => err 500 "Shioaji API not initialized"
      | Some s =>
          let dir := s_contracts s in
          if String.eqb type_ "stock" then
            match resolve_stock dir code with
            | None => err 500 ("Contract not found for code=" +s+ code)
            | Some (contract, market) => quote_snapshot s contract market type_
            end
          else if String.eqb type_ "futures" then
            match getitem (d_Futures dir) code with
            | None => quote_error (py_repr code)        (* KeyError *)
            | Some contract => quote_snapshot s contract "Futures" type_
            end
          else if String.eqb type_ "options" then
            match getitem (d_Options dir) code with
            | None => quote_error (py_repr code)        (* KeyError *)
            | Some contract => quote_snapshot s contract "Options" type_
            end
          else err 400 ("Unsupported type: " +s+ type_)
      end
  end.

(** ** [login] *)

#[local] Set Warnings "-register-all".

(** The JSON body as parsed by [request.get_json()] (numbers are integers). *)
Inductive jval :=
| JNull
| JBool (b : bool)
| JNum (z : Z)
| JStr (s : string)
| JArr (l : list jval)
| JObj (fields : list (string * jval)).

(** Python truthiness ([not x] is [negb (truthy x)]). *)
Definition truthy (v : jval) : bool :=
  match v with
  | JNull => false
  | JBool b => b
  | JNum z => negb (z =? 0)
  | JStr s => negb (String.eqb s "")
  | JArr l => match l with [] => false | _ => true end
  | JObj f => match f with [] => false | _ => true end
  end.

(** [data.get(k, default)] on a dict parsed from JSON: the last duplicate
    key wins. *)
Definition obj_get (fields : list (string * jval)) (k : string) (default : jval) : jval :=
  fold_left (fun acc kv => if String.eqb (fst kv) k then snd kv else acc) fields default.

(** [", ".join(l)] *)
Fixpoint join_comma (l : list string) : string :=
  match l with
  | [] => ""
  | [x] => x
  | x :: rest => x +s+ ", " +s+ join_comma rest
  end.

(** Decimal digits of [n >= 0], prepended to [acc]. *)
Fixpoint digits_Z (fuel : nat) (n : Z) (acc : string) : string :=
  match fuel with
  | O => acc
  | S fuel' =>
      let acc' := String (ascii_of_nat (48 + Z.to_nat (n mod 10))) acc in
      if n <? 10 then acc' else digits_Z fuel' (n / 10) acc'
  end.

(** [str(z)] for an [int]. *)
Definition z_str (z : Z) : string :=
  let fuel := S (Z.to_nat (Z.log2 (Z.abs z))) in
  if z <? 0 then "-" +s+ digits_Z fuel (- z) "" else digits_Z fuel z "".

(** [str(v)] for the values the messages print: a [str] verbatim, an [int]
    in decimal, [True] / [False], [None].  Lists and dicts are never printed
    (the path check raises [TypeError] on them first). *)
Definition py_str (v : jval) : string :=
  match v with
  | JStr s => s
  | JNum z => z_str z
  | JNull => "None"
  | JBool true => "True"
  | JBool false => "False"
  | JArr _ => "[...]"
  | JObj _ => "{...}"
  end.

(** The SDK behaviour seen by one [login] request: the [sj.Shioaji(...)]
    constructor, [api.activate_ca], [api.login], [api.fetch_contracts], and
    what the file system answers [os.path.exists] for a path it accepts. *)
Record login_env := mk_login_env {
  ca_exists : jval -> bool;
  new_session : jval -> outcome session;
  activate_ca : session -> outcome bool;
  sdk_login : session -> outcome (list string);
  fetch_contracts : session -> outcome unit
}.

(** The request parameters that passed validation. *)
Record login_params := mk_login_params {
  p_api_key : jval;
  p_secret_key : jval;
  p_ca_path : jval;
  p_ca_password : jval;
  p_person_id : jval;
  p_simulation_mode : jval
}.

(** [os.path.exists(path)]: [os.stat] raises [TypeError] for a path that is
    not a [str], [bytes], [os.PathLike] or [int] (a [bool] is an [int]), and
    [exists] only turns [OSError] and [ValueError] into [False]. *)
Definition path_exists (env : login_env) (v : jval) : outcome bool :=
  match v with
  | JStr _ | JNum _ | JBool _ => Ok (ca_exists env v)
  | JNull => Raised "stat: path should be string, bytes, os.PathLike or integer, not NoneType"
  | JArr _ => Raised "stat: path should be string, bytes, os.PathLike or integer, not list"
  | JObj _ => Raised "stat: path should be string, bytes, os.PathLike or integer, not dict"
  end.

(** Lines 48-57. *)
Definition missing_params (p : login_params) : list string :=
  (if truthy (p_api_key p) then [] else ["api_key"]) ++
  (if truthy (p_secret_key p) then [] else ["secret_key"]) ++
  (if truthy (p_simulation_mode p) then []
   else (if truthy (p_ca_password p) then [] else ["ca_password"]) ++
        (if truthy (p_person_id p) then [] else ["person_id"])).

Definition login_error (msg : string) : response :=
  err 500 ("Error in login: " +s+ msg).

(** Lines 36-65: either an early response, or the parameters to go on with. *)
Definition login_validate (env : login_env) (data : option jval)
    : response + login_params :=
  match data with
  | None => inl (err 400 "Request body is empty")
  | Some d =>
      if negb (truthy d) then inl (err 400 "Request body is empty")
      else
        match d with
        | JObj f =>
            let p := mk_login_params (obj_get f "api_key" JNull) (obj_get f "secret_key" JNull)
                       (obj_get f "ca_path" (JStr "/app/Sinopac.pfx"))
                       (obj_get f "ca_password" JNull) (obj_get f "person_id" JNull)
                       (obj_get f "simulation_mode" (JBool false)) in
            match missing_params p with
            | (_ :: _) as missing =>
                inl (err 400 ("Missing parameters: " +s+ join_comma missing))
            | [] =>
                if truthy (p_simulation_mode p) then inr p
                else
                  match path_exists env (p_ca_path p) with
                  | Raised e => inl (login_error e)
                  | Ok true => inr p
                  | Ok false => inl (err 500 ("CA file not found at " +s+ py_str (p_ca_path p)))
                  end
            end
        | JBool _ => inl (login_error "'bool' object has no attribute 'get'")
        | JNum _ => inl (login_error "'int' object has no attribute 'get'")
        | JStr _ => inl (login_error "'str' object has no attribute 'get'")
        | JArr _ => inl (login_error "'list' object has no attribute 'get'")
        | JNull => inl (login_error "'NoneType' object has no attribute 'get'")
        end
  end.

(** Lines 67-88: [api = sj.Shioaji(...)] is assigned before the later steps. *)
Definition login_session (w : world) (env : login_env) (p : login_params)
    : world * response :=
  let sim := p_simulation_mode p in
  match new_session env sim with
  | Raised e => (w, login_error e)
  | Ok s =>
      let w' := mk_world (Some s) (contract_cache w) in
      let activated :=
        if truthy sim then Ok true else activate_ca env s in
      match activated with
      | Raised e => (w', login_error e)
      | Ok false => (w', err 500 "Failed to activate CA")
      | Ok true =>
          match sdk_login env s with
          | Raised e => (w', login_error e)
          | Ok accounts =>
              match fetch_contracts env s with
              | Raised e => (w', login_error e)
              | Ok _ => (w', mk_response 200 (BLogin accounts))
              end
          end
      end
  end.

(** The [login] handler. *)
Definition login (w : world) (env : login_env) (data : option jval) : world * response :=
  match login_validate env data with
  | inl r => (w, r)
  | inr p => login_session w env p
  end.

(** ** Concrete inputs *)

(** Decimal rendering of a natural number, for contract codes. *)
Fixpoint digits_fuel (fuel n : nat) (acc : string) : string :=
  match fuel with
  | O => acc
  | S fuel' =>
      let acc' := String (ascii_of_nat (48 + n mod 10)) acc in
      if (n <? 10)%nat then acc' else digits_fuel fuel' (n / 10) acc'
  end.

Definition nat_str (n : nat) : string := digits_fuel (S n) n "".

Definition stock_contract (id : nat) (prefix : string) (k : nat) : contract :=
  mk_contract id (Some (prefix +s+ nat_str k)) (Some "Common").

Definition contracts_from (base : nat) (prefix : string) (count : nat) : list contract :=
  map (fun k => stock_contract (base + k) prefix k) (seq 0 count).

(** 200 TSE stocks, 200 OTC stocks, no OES, 50 futures: 450 instruments. *)
Definition dir450 : directory :=
  mk_directory (contracts_from 0 "T" 200) (contracts_from 200 "O" 200) None
    (contracts_from 400 "F" 50) [].

(** The snapshot the SDK returns for one requested handle. *)
Definition snapshot_of (v : cval) : snapshot :=
  match v with
  | VContract c =>
      mk_snapshot (match c_code c with Some k => k | None => "" end) (Some 100) (Some 1)
  | VStr s => mk_snapshot s None None
  end.

(** An SDK that answers each batch in order, one snapshot per handle. *)
Definition snap_exact (n : nat) (batch : list cval) : outcome (list snapshot) :=
  Ok (map snapshot_of batch).

(** The same SDK whose call number [bad] raises. *)
Definition snap_failing (bad : nat) (n : nat) (batch : list cval) : outcome (list snapshot) :=
  if Nat.eqb n bad then Raised "Timeout" else Ok (map snapshot_of batch).

Definition session450 (snap : nat -> list cval -> outcome (list snapshot)) : session :=
  mk_session 1 (Ok (0, 1000)) dir450 snap.

Definition fresh_world (s : session) : world := mk_world (Some s) [].

(** Projections of an effect trace. *)
Definition snapshot_batches (tr : list event) : list (list cval) :=
  flat_map (fun e => match e with EvSnapshot b => [b] | _ => [] end) tr.

Definition snapshot_sizes (tr : list event) : list nat := map (@length cval) (snapshot_batches tr).

Definition event_kind (e : event) : string :=
  match e with
  | EvUsage => "usage"
  | EvMemory => "memory"
  | EvContracts => "contracts"
  | EvSnapshot _ => "snapshot"
  | EvSleep _ => "sleep"
  end.

(** The fields of a snapshot that a [fetch_all] record copies. *)
Definition snapshot_fields (q : snapshot) : string * option Z * option Z :=
  (q_code q, q_close q, q_ts q).

Definition record_fields (r : quote_rec) : string * option Z * option Z :=
  (r_code r, r_price r, r_timestamp r).

(** Modelled from the spec (4.5), to be compared with [fetch_all]: the records
    of a chunk pair its returned quotes with the market labels of that
    chunk's own input instruments; a raised chunk contributes nothing. *)
Definition to_record (qm : snapshot * cval) : quote_rec :=
  mk_quote_rec (q_code (fst qm)) (snd qm) (q_close (fst qm)) (q_ts (fst qm)).

Definition label_chunk (markets : list cval) (i : nat) (qs : list snapshot) : list quote_rec :=
  map to_record (combine qs (firstn batch_size (skipn i markets))).

Definition spec_labelled_quotes (snap : nat -> list cval -> outcome (list snapshot))
    (contracts markets : list cval) : list quote_rec :=
  fold_left (fun acc i =>
      match snap (i / batch_size)%nat (firstn batch_size (skipn i contracts)) with
      | Raised _ => acc
      | Ok qs => acc ++ label_chunk markets i qs
      end)
    (py_range0 (length contracts) batch_size) [].

(** The 450-instrument run whose second snapshot call raises. *)
Definition run450_fail2 : world * response * list event :=
  fetch_all (fresh_world (session450 (snap_failing 1))) 0.

Definition response450_fail2 : response := snd (fst run450_fail2).
Definition cache450_fail2 : cache := contract_cache (fst (fst run450_fail2)).
Definition trace450_fail2 : list event := snd run450_fail2.
Definition markets_or_nil (d : cache) : list cval :=
  match collect_markets d with Ok ms => ms | Raised _ => [] end.

Definition markets450_fail2 : list cval := markets_or_nil cache450_fail2.

(** A warm cache holding the 450 instruments of [dir450], on a session whose
    second snapshot call raises. *)
Definition world450_warm : world :=
  mk_world (Some (session450 (snap_failing 1)))
    (contract_cache (fst (fst (fetch_all (fresh_world (session450 snap_exact)) 0)))).

(** The same cache on a session whose snapshot calls all answer. *)
Definition world450_exact : world :=
  mk_world (Some (session450 snap_exact)) (contract_cache world450_warm).

(** The market label of record 200 of a [quotes] list. *)
Definition market_at_200 (b : body) : option cval :=
  match b with BQuotes qs => option_map r_market (nth_error qs 200) | _ => None end.

Definition sleep_count (tr : list event) : nat :=
  length (filter (fun e => match e with EvSleep _ => true | _ => false end) tr).

(** A minimal SDK for the login requests of the witnesses. *)
Definition session0 : session :=
  mk_session 7 (Ok (0, 1000)) (mk_directory [] [] None [] []) snap_exact.

Definition env_with (activation : outcome bool) : login_env :=
  mk_login_env (fun _ => true) (fun _ => Ok session0) (fun _ => activation)
    (fun _ => Ok ["acct"]) (fun _ => Ok tt).

Definition batch_event (e : event) : Prop :=
  match e with EvSnapshot _ | EvSleep _ => True | _ => False end.

(** A real-mode login body carrying all four credentials. *)
Definition login_fields_real : list (string * jval) :=
  [("api_key", JStr "k"); ("secret_key", JStr "s"); ("ca_password", JStr "pw");
   ("person_id", JStr "A123")].

Definition login_data_real : jval := JObj login_fields_real.

Definition dir_otc_only : directory :=
  mk_directory [stock_contract 1 "T" 1] [stock_contract 2 "O" 5] None [] [].

(** The keys written for one stock contract. *)
Definition stock_keys_avoid (X : string) (c' : contract) : Prop :=
  forall k', c_code c' = Some k' ->
    X <> "stock_" +s+ k' /\ X <> ("stock_" +s+ k') +s+ "_market" /\
    X <> "warrant_" +s+ k' /\ X <> ("warrant_" +s+ k') +s+ "_market".

Definition warrant_tse : contract := mk_contract 1 (Some "03001P") (Some "Warrant").

Definition dir_warrant : directory :=
  mk_directory [warrant_tse] [stock_contract 2 "O" 5] (Some []) [stock_contract 3 "F" 1] [].

(** [contracts[i:i + batch_size]] *)
Definition chunk (contracts : list cval) (i : nat) : list cval :=
  firstn batch_size (skipn i contracts).

(** What one snapshot call adds to [quotes]: its answer, or nothing when it
    raised (the [except ... continue] branch). *)
Definition answer_quotes (o : outcome (list snapshot)) : list snapshot :=
  match o with Ok qs => qs | Raised _ => [] end.

Definition answered (o : outcome (list snapshot)) : bool :=
  match o with Ok _ => true | Raised _ => false end.

(** The shape [populate] gives the cache: every key not ending in [_market]
    has its [<key>_market] entry, and market labels (strings) are stored only
    under keys ending in [_market]. *)
Definition labelled_cache (d : cache) : Prop :=
  (forall k, In k (map fst d) -> is_market_key k = false -> In (k +s+ "_market") (map fst d)) /\
  (forall k x, In (k, VStr x) d -> is_market_key k = true).

(** A simulation-mode login body: keys only, no CA fields. *)
Definition login_data_sim : jval :=
  JObj [("api_key", JStr "k"); ("secret_key", JStr "s"); ("simulation_mode", JBool true)].

(** An SDK environment without the CA file, whose [activate_ca] raises. *)
Definition env_no_ca : login_env :=
  mk_login_env (fun _ => false) (fun _ => Ok session0) (fun _ => Raised "CA error")
    (fun _ => Ok ["acct"]) (fun _ => Ok tt).

Definition session_warrant : session := mk_session 2 (Ok (0, 1000)) dir_warrant snap_exact.

Definition dir_oes : directory :=
  mk_directory [stock_contract 1 "T" 1] [stock_contract 2 "O" 5] (Some [stock_contract 9 "E" 1]) [] [].

(** A warm cache written by an earlier session: one stock with its market entry. *)
Definition cache_one : cache :=
  [("stock_T1", VContract (stock_contract 0 "T" 1)); ("stock_T1_market", VStr "TSE")].

(** ** Lemmas on the Python dict model *)

Lemma dict_get_set (d : cache) (k k' : string) (v : cval) :
  dict_get (dict_set d k v) k' = if String.eqb k k' then Some v else dict_get d k'.
Proof.
  induction d as [| [k0 v0] d IH]; simpl.
  - destruct (String.eqb k k'); reflexivity.
  - destruct (String.eqb k0 k) eqn:E0; simpl.
    + apply String.eqb_eq in E0; subst k0.
      destruct (String.eqb k k'); reflexivity.
    + destruct (String.eqb k0 k') eqn:E1; [| exact IH].
      apply String.eqb_eq in E1; subst k0.
      rewrite String.eqb_sym, E0. reflexivity.
Qed.

Lemma append_cancel_l (p a b : string) : p +s+ a = p +s+ b -> a = b.
Proof.
  induction p as [| x p IH]; simpl; [auto |].
  intro H; injection H; exact IH.
Qed.

Lemma append_length (a b : string) :
  String.length (a +s+ b) = (String.length a + String.length b)%nat.
Proof. induction a; simpl; auto. Qed.

Lemma append_cancel_r (a b s : string) : a +s+ s = b +s+ s -> a = b.
Proof.
  revert b; induction a as [| x a IH]; intros [| y b] H; simpl in *; auto.
  - apply (f_equal String.length) in H; simpl in H.
    rewrite append_length in H; lia.
  - apply (f_equal String.length) in H; simpl in H.
    rewrite append_length in H; lia.
  - injection H as -> H. f_equal; auto.
Qed.

Lemma append_assoc_str (a b c : string) : (a +s+ b) +s+ c = a +s+ (b +s+ c).
Proof. induction a; simpl; congruence. Qed.

(** ** Lemmas on the batch loop *)

Lemma batch_fold_events snap contracts starts acc :
  (forall e, In e (snd acc) -> batch_event e) ->
  forall e, In e (snd (fold_left (batch_step snap contracts) starts acc)) -> batch_event e.
Proof.
  revert acc; induction starts as [| i starts IH]; intros [quotes tr] Hacc; simpl; auto.
  apply IH. unfold batch_step.
  destruct (snap _ _); simpl; intros e He; apply in_app_or in He as [He | He]; auto;
    simpl in He; intuition (subst; exact I).
Qed.

Lemma batch_query_events snap contracts e :
  In e (snd (batch_query snap contracts)) -> batch_event e.
Proof. apply batch_fold_events. simpl. tauto. Qed.

(** ** Claims on [fetch_all]'s guards and cache *)

(** C5: on an initialised session whose [api.usage()] answers, if the traffic
    gate ([usage.bytes > 0.8 * usage.limit_bytes]) or the memory gate
    ([rss > 12 GiB]) trips, [fetch_all] answers 429, leaves both globals
    unchanged, and its only effects are the quota and memory reads: no
    [api.Contracts] access and no snapshot call.  The cache is arbitrary, so
    this holds for warm-cache calls too. *)
Theorem fetch_all_resource_guard (w : world) (s : session) (rss bytes limit_bytes : Z)
    (w' : world) (r : response) (tr : list event) :
  api w = Some s ->
  s_usage s = Ok (bytes, limit_bytes) ->
  over_traffic_limit bytes limit_bytes = true \/ over_memory_limit rss = true ->
  fetch_all w rss = (w', r, tr) ->
  statusCode r = 429 /\ w' = w /\ (forall e, In e tr -> e = EvUsage \/ e = EvMemory).
Proof.
  intros Hapi Husage Hgate Hrun. unfold fetch_all in Hrun.
  rewrite Hapi, Husage in Hrun.
  destruct (over_traffic_limit bytes limit_bytes) eqn:Et.
  - injection Hrun as <- <- <-. simpl. intuition.
  - destruct Hgate as [Hg | Hg]; [discriminate |]. rewrite Hg in Hrun.
    injection Hrun as <- <- <-. simpl. intuition.
Qed.

Lemma fetch_all_resource_guard_witness :
  let s := mk_session 1 (Ok (81, 100)) dir450 snap_exact in
  fetch_all (mk_world (Some s) []) 0 = (mk_world (Some s) [], err 429 "Approaching traffic limit", [EvUsage]) /\
  statusCode (err 429 "Approaching traffic limit") = 429 /\ mk_world (Some s) [] = mk_world (Some s) [] /\
  (forall e, In e [EvUsage] -> e = EvUsage \/ e = EvMemory).
Proof.
  intro s. assert (Hrun : fetch_all (mk_world (Some s) []) 0 =
    (mk_world (Some s) [], err 429 "Approaching traffic limit", [EvUsage])) by reflexivity.
  split; [exact Hrun |].
  exact (fetch_all_resource_guard (mk_world (Some s) []) s 0 81 100 _ _ _
           eq_refl eq_refl (or_introl eq_refl) Hrun).
Defined.

(** C6: a [fetch_all] request that finds [contract_cache] non-empty makes no
    [api.Contracts] access and leaves the cache (and the session) as they were:
    population happens only while the cache is empty. *)
Theorem fetch_all_warm_cache_no_population (w : world) (rss : Z)
    (w' : world) (r : response) (tr : list event) :
  contract_cache w <> [] ->
  fetch_all w rss = (w', r, tr) ->
  ~ In EvContracts tr /\ contract_cache w' = contract_cache w /\ api w' = api w.
Proof.
  intros Hne Hrun. unfold fetch_all in Hrun.
  destruct (api w) as [s |] eqn:Hapi;
    [| injection Hrun as <- <- <-; simpl; intuition (try discriminate)].
  destruct (s_usage s) as [[bytes limit_bytes] | e];
    [| injection Hrun as <- <- <-; simpl; intuition (try discriminate)].
  destruct (over_traffic_limit bytes limit_bytes);
    [injection Hrun as <- <- <-; simpl; intuition (try discriminate) |].
  destruct (over_memory_limit rss);
    [injection Hrun as <- <- <-; simpl; intuition discriminate |].
  destruct (contract_cache w) as [| kv d] eqn:Hc; [contradiction |].
  assert (Hpre : ~ In EvContracts [EvUsage; EvMemory]) by (simpl; intuition discriminate).
  destruct (collect_markets (kv :: d)) as [markets |].
  - destruct (batch_query (s_snapshots s) (collect_contracts (kv :: d))) as [quotes tr_b] eqn:Eb.
    assert (Htb : ~ In EvContracts tr_b).
    { intro Hin. pose proof (batch_query_events (s_snapshots s) (collect_contracts (kv :: d)) EvContracts) as Hb.
      rewrite Eb in Hb. exact (Hb Hin). }
    destruct (format_quotes markets 0 quotes);
      injection Hrun as <- <- <-; simpl; rewrite ?app_nil_r;
      repeat split; auto; simpl; intuition discriminate.
  - injection Hrun as <- <- <-; simpl; rewrite ?app_nil_r; auto.
Qed.

Lemma fetch_all_warm_cache_no_population_witness :
  let w := mk_world (Some (session450 snap_exact)) [("stock_1", VContract (stock_contract 0 "T" 1));
                                                    ("stock_1_market", VStr "TSE")] in
  exists w' r tr, fetch_all w 0 = (w', r, tr) /\
    (~ In EvContracts tr /\ contract_cache w' = contract_cache w /\ api w' = api w).
Proof.
  intro w. destruct (fetch_all w 0) as [[w' r] tr] eqn:Hrun.
  exists w', r, tr. split; [reflexivity |].
  exact (fetch_all_warm_cache_no_population w 0 w' r tr ltac:(discriminate) Hrun).
Defined.

(** ** Claim on [login]'s session replacement *)

Lemma quote_snapshot_body (s : session) (c : contract) (m t : string) :
  (exists msg, rbody (quote_snapshot s c m t) = BError ("Error in quote: " +s+ msg)) \/
  (exists q, rbody (quote_snapshot s c m t) = BQuote q m t /\ statusCode (quote_snapshot s c m t) = 200).
Proof.
  unfold quote_snapshot.
  destruct (s_snapshots s 0 [VContract c]) as [[| q qs] | e]; simpl;
    [left; eexists; reflexivity | | left; eexists; reflexivity].
  destruct (q_close q), (q_ts q); simpl;
    first [right; eexists; split; reflexivity | left; eexists; reflexivity].
Qed.

(** With an initialised session, no [quote] request answers
    "Shioaji API not initialized". *)
Lemma quote_initialised (w : world) (s : session) (code : string) (t : option string) :
  api w = Some s -> code <> "" ->
  rbody (quote w (Some code) t) <> BError "Shioaji API not initialized".
Proof.
  intros Hapi Hcode. unfold quote.
  destruct code as [| ch code']; [contradiction |]. rewrite Hapi.
  set (type_ := match t with Some t0 => t0 | None => "stock" end).
  assert (Hsnap : forall c m, rbody (quote_snapshot s c m type_) <> BError "Shioaji API not initialized").
  { intros c m. destruct (quote_snapshot_body s c m type_) as [[msg ->] | [q [-> _]]];
      intro H; [injection H as H; simpl in H; discriminate H | discriminate H]. }
  destruct (String.eqb type_ "stock").
  - destruct (resolve_stock _ _) as [[c m] |]; [apply Hsnap |].
    simpl. intro H; injection H as H; discriminate H.
  - destruct (String.eqb type_ "futures").
    + destruct (getitem _ _); [apply Hsnap |]. simpl. intro H; injection H as H; discriminate H.
    + destruct (String.eqb type_ "options").
      * destruct (getitem _ _); [apply Hsnap |]. simpl. intro H; injection H as H; discriminate H.
      * simpl. intro H; injection H as H; discriminate H.
Qed.

(** C7: once a [login] request has passed validation and [sj.Shioaji(...)]
    has returned the instance [s], the global [api] is [s] after the request,
    whatever the later steps do (the response is then 200 or 500); the
    previous session is not restored and the cache is untouched.  The next
    [fetch_all] sees an initialised session (its first effect is
    [s.usage()]), and no [quote] request reports an uninitialised session. *)
Theorem login_replaces_session (w : world) (env : login_env) (data : option jval)
    (p : login_params) (s : session) (w' : world) (r : response) :
  login_validate env data = inr p ->
  new_session env (p_simulation_mode p) = Ok s ->
  login w env data = (w', r) ->
  api w' = Some s /\ contract_cache w' = contract_cache w /\
  (statusCode r = 200 \/ statusCode r = 500) /\
  (forall rss, exists rest, snd (fetch_all w' rss) = EvUsage :: rest) /\
  (forall code t, code <> "" -> rbody (quote w' (Some code) t) <> BError "Shioaji API not initialized").
Proof.
  intros Hval Hnew Hrun. unfold login in Hrun. rewrite Hval in Hrun.
  unfold login_session in Hrun. rewrite Hnew in Hrun.
  assert (Hw : w' = mk_world (Some s) (contract_cache w) /\ (statusCode r = 200 \/ statusCode r = 500)).
  { destruct (if truthy (p_simulation_mode p) then Ok true else activate_ca env s) as [[|] | e];
      [| injection Hrun as <- <-; auto | injection Hrun as <- <-; auto].
    destruct (sdk_login env s) as [accounts | e]; [| injection Hrun as <- <-; auto].
    destruct (fetch_contracts env s); injection Hrun as <- <-; auto. }
  destruct Hw as [-> Hstatus].
  split; [reflexivity |]. split; [reflexivity |]. split; [exact Hstatus |]. split.
  - intro rss. unfold fetch_all; simpl.
    destruct (s_usage s) as [[bytes limit_bytes] | e]; [| eexists; reflexivity].
    destruct (over_traffic_limit bytes limit_bytes); [eexists; reflexivity |].
    destruct (over_memory_limit rss); [eexists; reflexivity |].
    destruct (contract_cache w) as [| kv d]; simpl;
      [destruct (collect_markets _) as [markets |]; [| eexists; reflexivity];
       destruct (batch_query _ _); destruct (format_quotes _ _ _); eexists; reflexivity |].
    destruct (collect_markets _) as [markets |]; [| eexists; reflexivity].
    destruct (batch_query _ _); destruct (format_quotes _ _ _); eexists; reflexivity.
  - intros code t Hcode. apply (quote_initialised _ s); [reflexivity | exact Hcode].
Qed.

Lemma login_replaces_session_witness :
  let w := mk_world None [] in
  exists p w' r,
    login_validate (env_with (Ok false)) (Some login_data_real) = inr p /\
    login w (env_with (Ok false)) (Some login_data_real) = (w', r) /\
    statusCode r = 500 /\ api w' = Some session0.
Proof.
  intro w.
  destruct (login_validate (env_with (Ok false)) (Some login_data_real)) as [r0 | p] eqn:Hval;
    [discriminate Hval |].
  destruct (login w (env_with (Ok false)) (Some login_data_real)) as [w' r] eqn:Hrun.
  exists p, w', r. split; [reflexivity | split; [reflexivity |]].
  assert (Hp : p_simulation_mode p = JBool false).
  { unfold login_validate in Hval; simpl in Hval. injection Hval as <-. reflexivity. }
  destruct (login_replaces_session w (env_with (Ok false)) (Some login_data_real) p session0 w' r
              Hval ltac:(rewrite Hp; reflexivity) Hrun) as [Hapi _].
  split; [| exact Hapi].
  unfold login in Hrun; vm_compute in Hrun. injection Hrun as _ <-. reflexivity.
Defined.

(** ** Claims on [quote] *)

(** C9: for [type=stock] (explicit or by default), a code that [TSE] lacks and
    [OTC] has resolves to the OTC contract with market ["OTC"] (or
    ["OTC_Warrant"] for a warrant); the snapshot is taken of that contract and
    a 200 response carries that market. *)
Theorem quote_stock_falls_back_to_OTC (w : world) (s : session) (code : string)
    (t : option string) (c : contract) :
  api w = Some s -> code <> "" ->
  t = None \/ t = Some "stock" ->
  getitem (d_TSE (s_contracts s)) code = None ->
  getitem (d_OTC (s_contracts s)) code = Some c ->
  let market := if is_warrant c then "OTC_Warrant" else "OTC" in
  resolve_stock (s_contracts s) code = Some (c, market) /\
  quote w (Some code) t = quote_snapshot s c market "stock" /\
  (statusCode (quote w (Some code) t) = 200 ->
   exists q, rbody (quote w (Some code) t) = BQuote q market "stock").
Proof.
  intros Hapi Hcode Ht Htse Hotc market.
  assert (Hres : resolve_stock (s_contracts s) code = Some (c, market)).
  { unfold resolve_stock, stock_venues; simpl. rewrite Htse, Hotc.
    unfold market; destruct (is_warrant c); reflexivity. }
  assert (Hq : quote w (Some code) t = quote_snapshot s c market "stock").
  { unfold quote. destruct code as [| ch code']; [contradiction |].
    rewrite Hapi.
    destruct Ht as [-> | ->]; simpl; rewrite Hres; reflexivity. }
  split; [exact Hres |]. split; [exact Hq |].
  rewrite Hq. intro H200.
  destruct (quote_snapshot_body s c market "stock") as [[msg Hb] | [q [Hb _]]];
    [| exists q; exact Hb].
  exfalso. unfold quote_snapshot in H200, Hb.
  destruct (s_snapshots s 0 [VContract c]) as [[| q qs] | e]; simpl in H200;
    [discriminate | | discriminate].
  destruct (q_close q), (q_ts q); simpl in *; discriminate.
Qed.

Lemma quote_stock_falls_back_to_OTC_witness :
  let s := mk_session 1 (Ok (0, 1000)) dir_otc_only snap_exact in
  let w := mk_world (Some s) [] in
  statusCode (quote w (Some "O5") (Some "stock")) = 200 /\
  exists q, rbody (quote w (Some "O5") (Some "stock")) = BQuote q "OTC" "stock".
Proof.
  intros s w.
  destruct (quote_stock_falls_back_to_OTC w s "O5" (Some "stock") (stock_contract 2 "O" 5)
              eq_refl ltac:(discriminate) (or_intror eq_refl) eq_refl eq_refl)
    as [_ [_ H200]].
  assert (Hs : statusCode (quote w (Some "O5") (Some "stock")) = 200) by reflexivity.
  split; [exact Hs | exact (H200 Hs)].
Defined.

(** C10: with a code supplied and an initialised session, a lookup miss is a
    500 (never a 404): for [type=stock] when TSE, OTC and OES (if present) all
    lack the code, and for [type=futures] / [type=options] when the direct
    [container[code]] raises [KeyError]. *)
Theorem quote_miss_is_500 (w : world) (s : session) (code : string) :
  api w = Some s -> code <> "" ->
  let dir := s_contracts s in
  (getitem (d_TSE dir) code = None -> getitem (d_OTC dir) code = None ->
   (forall oes, d_OES dir = Some oes -> getitem oes code = None) ->
   forall t, t = None \/ t = Some "stock" -> statusCode (quote w (Some code) t) = 500) /\
  (getitem (d_Futures dir) code = None ->
   statusCode (quote w (Some code) (Some "futures")) = 500) /\
  (getitem (d_Options dir) code = None ->
   statusCode (quote w (Some code) (Some "options")) = 500).
Proof.
  intros Hapi Hcode dir. unfold quote.
  destruct code as [| ch code']; [contradiction |]. rewrite Hapi.
  split; [| split].
  - intros Htse Hotc Hoes t Ht.
    assert (Hres : resolve_stock dir (String ch code') = None).
    { unfold resolve_stock, stock_venues; simpl. rewrite Htse, Hotc.
      destruct (d_OES dir) as [oes |] eqn:E; [rewrite (Hoes oes eq_refl) |]; reflexivity. }
    destruct Ht as [-> | ->]; simpl; fold dir; rewrite Hres; reflexivity.
  - intro Hf. simpl. fold dir. rewrite Hf. reflexivity.
  - intro Ho. simpl. fold dir. rewrite Ho. reflexivity.
Qed.

Lemma quote_miss_is_500_witness :
  let s := mk_session 1 (Ok (0, 1000)) dir_otc_only snap_exact in
  let w := mk_world (Some s) [] in
  statusCode (quote w (Some "Z9") None) = 500 /\
  statusCode (quote w (Some "Z9") (Some "futures")) = 500 /\
  statusCode (quote w (Some "Z9") (Some "options")) = 500.
Proof.
  intros s w.
  destruct (quote_miss_is_500 w s "Z9" eq_refl ltac:(discriminate)) as [Hs [Hf Ho]].
  split; [| split].
  - apply Hs; [reflexivity | reflexivity | intros oes H; discriminate H | left; reflexivity].
  - apply Hf; reflexivity.
  - apply Ho; reflexivity.
Defined.

(** ** Claim on [login]'s validation *)

(** C2, as stated, fails: the body [{}] is an empty dict, falsy for
    [if not data], so the request is refused as an empty body before any
    parameter is checked. *)
Lemma login_empty_object_not_missing_params :
  ~ (statusCode (snd (login (mk_world None []) (env_with (Ok true)) (Some (JObj [])))) = 400 /\
     rbody (snd (login (mk_world None []) (env_with (Ok true)) (Some (JObj [])))) =
       BError "Missing parameters: api_key, secret_key, ca_password, person_id").
Proof. vm_compute. intros [_ H]. discriminate H. Qed.

(** C2, amended: posting [{}] answers 400 "Request body is empty"; a non-empty
    object body with [simulation_mode] absent or falsy in which none of
    [api_key], [secret_key], [ca_password], [person_id] is truthy answers 400
    with the missing names listed exactly as
    [api_key, secret_key, ca_password, person_id]; neither touches the
    globals. *)
Theorem login_missing_params_order (w : world) (env : login_env) :
  login w env (Some (JObj [])) = (w, err 400 "Request body is empty") /\
  forall fields : list (string * jval),
    fields <> [] ->
    truthy (obj_get fields "simulation_mode" (JBool false)) = false ->
    truthy (obj_get fields "api_key" JNull) = false ->
    truthy (obj_get fields "secret_key" JNull) = false ->
    truthy (obj_get fields "ca_password" JNull) = false ->
    truthy (obj_get fields "person_id" JNull) = false ->
    login w env (Some (JObj fields)) =
      (w, err 400 "Missing parameters: api_key, secret_key, ca_password, person_id").
Proof.
  split; [reflexivity |].
  intros fields Hne Hsim Hak Hsk Hpw Hpid.
  unfold login, login_validate.
  destruct fields as [| kv fields']; [contradiction |].
  unfold missing_params. cbn -[obj_get].
  rewrite Hak, Hsk, Hsim, Hpw, Hpid. reflexivity.
Qed.

Lemma login_missing_params_order_witness :
  login (mk_world None []) (env_with (Ok true)) (Some (JObj [("simulation_mode", JBool false)])) =
    (mk_world None [], err 400 "Missing parameters: api_key, secret_key, ca_password, person_id").
Proof.
  destruct (login_missing_params_order (mk_world None []) (env_with (Ok true))) as [_ H].
  apply H; [discriminate | reflexivity | reflexivity | reflexivity | reflexivity | reflexivity].
Defined.

(** ** Claims on the batch loop of [fetch_all] *)

(** C1 fails on the code: records are labelled by their position in the
    concatenated [quotes] list ([markets[i]] for [enumerate(quotes)]), not by
    the index of the input instrument.  With 200 TSE stocks, 200 OTC stocks and
    50 futures and the second chunk raising, record 200 is the snapshot of
    the first futures contract (input index 400, label ["Futures"]) but is
    labelled ["OTC"], where the chunk-wise pairing of the spec gives ["Futures"]. *)
Theorem fetch_all_label_shift_after_failed_chunk :
  statusCode response450_fail2 = 200 /\
  match rbody response450_fail2 with BQuotes qs => nth_error qs 200 | _ => None end =
    Some (mk_quote_rec "F0" (VStr "OTC") (Some 100) (Some 1)) /\
  nth_error (collect_contracts cache450_fail2) 400 = Some (VContract (stock_contract 400 "F" 0)) /\
  nth_error markets450_fail2 400 = Some (VStr "Futures") /\
  market_at_200 (BQuotes (spec_labelled_quotes (snap_failing 1) (collect_contracts cache450_fail2)
                            markets450_fail2)) = Some (VStr "Futures").
Proof.
  split; [vm_compute; reflexivity |]. split; [vm_compute; reflexivity |].
  split; [vm_compute; reflexivity |]. split; vm_compute; reflexivity.
Qed.

(** C3 fails on the code: the [except] branch ends in [continue], which skips
    [time.sleep(1)]; with the second of three chunks raising there are three
    snapshot calls but only two pauses, none after the failed chunk. *)
Theorem fetch_all_no_pause_after_failed_chunk :
  snapshot_sizes trace450_fail2 = [200; 200; 50]%nat /\ sleep_count trace450_fail2 = 2%nat /\
  map event_kind trace450_fail2 =
    ["usage"; "memory"; "contracts"; "contracts"; "contracts"; "contracts"; "contracts";
     "snapshot"; "sleep"; "snapshot"; "snapshot"; "sleep"].
Proof. split; [| split]; vm_compute; reflexivity. Qed.

Lemma collect_markets_from_length (full items : cache) (ms : list cval) :
  collect_markets_from full items = Ok ms ->
  length ms = length (filter (fun kv => negb (is_market_key (fst kv))) items).
Proof.
  revert ms; induction items as [| [k v] items IH]; intros ms H; simpl in *.
  - injection H as <-. reflexivity.
  - destruct (is_market_key k); simpl; [auto |].
    destruct (dict_get full (k +s+ "_market")); [| discriminate].
    destruct (collect_markets_from full items) as [ms' |]; [| discriminate].
    injection H as <-. simpl. f_equal. auto.
Qed.

Lemma collect_markets_length (d : cache) (ms : list cval) :
  collect_markets d = Ok ms -> length ms = length (collect_contracts d).
Proof.
  intro H. unfold collect_contracts. rewrite length_map.
  exact (collect_markets_from_length d d ms H).
Qed.

Lemma format_quotes_fields (markets : list cval) (qs : list snapshot) (i : nat) :
  (i + length qs <= length markets)%nat ->
  exists rs, format_quotes markets i qs = Some rs /\
             map record_fields rs = map snapshot_fields qs.
Proof.
  revert i; induction qs as [| q qs IH]; intros i Hle; simpl in *.
  - exists []. auto.
  - destruct (nth_error markets i) as [m |] eqn:Hm.
    + destruct (IH (S i) ltac:(lia)) as [rs [-> Hrs]].
      exists (mk_quote_rec (q_code q) m (q_close q) (q_ts q) :: rs). simpl. rewrite Hrs. auto.
    + apply nth_error_None in Hm. lia.
Qed.

Lemma batch_query_450 snap (cs : list cval) :
  length cs = 450%nat ->
  batch_query snap cs =
  fold_left (batch_step snap cs) [0; 200; 400]%nat ([], []).
Proof. intro H. unfold batch_query. rewrite H. reflexivity. Qed.

(** C4: on a warm cache holding 450 instruments (each with its market
    entry) and a session that passes both gates, [fetch_all] makes exactly
    three snapshot calls, on the slices [0:200], [200:400] and [400:600] of
    sizes 200, 200 and 50, whatever the calls answer, and leaves the world as
    it was.  When the second call raises and the others return one quote per
    instrument, it answers 200 and its [quotes] list carries exactly the
    200 + 50 quotes of chunks 1 and 3, in order. *)
Theorem fetch_all_450_second_chunk_raises (w : world) (s : session) (rss bytes limit_bytes : Z)
    (markets : list cval) (w' : world) (r : response) (tr : list event) :
  let cs := collect_contracts (contract_cache w) in
  let b1 := firstn batch_size (skipn 0 cs) in
  let b2 := firstn batch_size (skipn 200 cs) in
  let b3 := firstn batch_size (skipn 400 cs) in
  api w = Some s ->
  s_usage s = Ok (bytes, limit_bytes) ->
  over_traffic_limit bytes limit_bytes = false ->
  over_memory_limit rss = false ->
  length cs = 450%nat ->
  collect_markets (contract_cache w) = Ok markets ->
  fetch_all w rss = (w', r, tr) ->
  snapshot_batches tr = [b1; b2; b3] /\ snapshot_sizes tr = [200; 200; 50]%nat /\ w' = w /\
  (forall e, s_snapshots s 1 b2 = Raised e ->
   (forall k b, k <> 1%nat -> exists qs, s_snapshots s k b = Ok qs /\ length qs = length b) ->
   statusCode r = 200 /\
   exists qs1 qs3 rs,
     s_snapshots s 0 b1 = Ok qs1 /\ s_snapshots s 2 b3 = Ok qs3 /\
     rbody r = BQuotes rs /\ length rs = 250%nat /\
     map record_fields rs = map snapshot_fields (qs1 ++ qs3)).
Proof.
  intros cs b1 b2 b3 Hapi Husage Ht Hm Hlen Hmk Hrun.
  assert (L1 : length b1 = 200%nat) by (unfold b1; rewrite length_firstn, length_skipn; fold cs; rewrite Hlen; reflexivity).
  assert (L2 : length b2 = 200%nat) by (unfold b2; rewrite length_firstn, length_skipn; fold cs; rewrite Hlen; reflexivity).
  assert (L3 : length b3 = 50%nat) by (unfold b3; rewrite length_firstn, length_skipn; fold cs; rewrite Hlen; reflexivity).
  assert (Hmlen : length markets = 450%nat) by (rewrite (collect_markets_length _ _ Hmk); exact Hlen).
  unfold fetch_all in Hrun. rewrite Hapi, Husage, Ht, Hm in Hrun.
  destruct (contract_cache w) as [| kv d] eqn:Hc; [simpl in Hlen; discriminate |].
  rewrite Hmk in Hrun. fold cs in Hrun.
  rewrite batch_query_450 in Hrun by exact Hlen. cbn [fold_left] in Hrun.
  unfold batch_step in Hrun. fold b1 b2 b3 in Hrun.
  change (0 / batch_size)%nat with 0%nat in Hrun. change (200 / batch_size)%nat with 1%nat in Hrun.
  change (400 / batch_size)%nat with 2%nat in Hrun.
  assert (Hw : mk_world (Some s) (kv :: d) = w) by (destruct w; simpl in *; subst; reflexivity).
  assert (Hshape : snapshot_batches tr = [b1; b2; b3] /\ w' = w).
  { destruct (s_snapshots s 0 b1), (s_snapshots s 1 b2), (s_snapshots s 2 b3);
      cbv beta iota in Hrun;
      (destruct (format_quotes markets 0 _); injection Hrun as <- <- <-;
       (split; [reflexivity | exact Hw])). }
  destruct Hshape as [Hb ->].
  split; [exact Hb |].
  split; [unfold snapshot_sizes; rewrite Hb; simpl; rewrite L1, L2, L3; reflexivity |].
  split; [reflexivity |].
  intros e Hfail Hok.
  destruct (Hok 0%nat b1 ltac:(discriminate)) as [qs1 [E1 Lq1]].
  destruct (Hok 2%nat b3 ltac:(discriminate)) as [qs3 [E3 Lq3]].
  rewrite E1, Hfail, E3 in Hrun. cbv beta iota in Hrun.
  destruct (format_quotes_fields markets (qs1 ++ qs3) 0) as [rs [Hf Hrs]].
  { rewrite length_app, Lq1, Lq3, L1, L3, Hmlen. lia. }
  rewrite app_nil_l, <- app_assoc in Hrun. simpl app in Hrun. rewrite Hf in Hrun.
  injection Hrun as _ <- _.
  split; [reflexivity |].
  exists qs1, qs3, rs. repeat split; auto.
  rewrite <- (length_map record_fields), Hrs, length_map, length_app, Lq1, Lq3, L1, L3. reflexivity.
Qed.

Lemma fetch_all_450_second_chunk_raises_witness :
  (exists w' r tr, fetch_all world450_warm 0 = (w', r, tr) /\
     statusCode r = 200 /\ snapshot_sizes tr = [200; 200; 50]%nat) /\
  (exists w' r tr, fetch_all world450_exact 0 = (w', r, tr) /\
     snapshot_sizes tr = [200; 200; 50]%nat /\ w' = world450_exact).
Proof.
  split.
  - destruct (fetch_all world450_warm 0) as [[w' r] tr] eqn:Hrun.
    exists w', r, tr. split; [reflexivity |].
    set (cs := collect_contracts (contract_cache world450_warm)).
    assert (Hlen : length cs = 450%nat) by (vm_compute; reflexivity).
    assert (Hmk : collect_markets (contract_cache world450_warm) =
                  Ok (markets_or_nil (contract_cache world450_warm))) by (vm_compute; reflexivity).
    assert (Hfail : s_snapshots (session450 (snap_failing 1)) 1 (firstn batch_size (skipn 200 cs)) =
                    Raised "Timeout") by reflexivity.
    assert (Hok : forall k b, k <> 1%nat -> exists qs,
              s_snapshots (session450 (snap_failing 1)) k b = Ok qs /\ length qs = length b).
    { intros k b Hk. exists (map snapshot_of b). split; [| apply length_map].
      simpl. unfold snap_failing. apply Nat.eqb_neq in Hk. rewrite Hk. reflexivity. }
    destruct (fetch_all_450_second_chunk_raises world450_warm (session450 (snap_failing 1)) 0 0 1000
                (markets_or_nil (contract_cache world450_warm)) w' r tr
                eq_refl eq_refl eq_refl eq_refl Hlen Hmk Hrun)
      as [_ [Hsz [_ Hcase]]].
    split; [exact (proj1 (Hcase "Timeout" Hfail Hok)) | exact Hsz].
  - destruct (fetch_all world450_exact 0) as [[w' r] tr] eqn:Hrun.
    exists w', r, tr. split; [reflexivity |].
    assert (Hlen : length (collect_contracts (contract_cache world450_exact)) = 450%nat)
      by (vm_compute; reflexivity).
    assert (Hmk : collect_markets (contract_cache world450_exact) =
                  Ok (markets_or_nil (contract_cache world450_exact))) by (vm_compute; reflexivity).
    destruct (fetch_all_450_second_chunk_raises world450_exact (session450 snap_exact) 0 0 1000
                (markets_or_nil (contract_cache world450_exact)) w' r tr
                eq_refl eq_refl eq_refl eq_refl Hlen Hmk Hrun)
      as [_ [Hsz [Hw _]]].
    split; [exact Hsz | exact Hw].
Defined.

(** ** Claim on the warrant alias of the cache *)

Lemma dict_get_set_same (d : cache) (k : string) (v : cval) :
  dict_get (dict_set d k v) k = Some v.
Proof. rewrite dict_get_set, String.eqb_refl. reflexivity. Qed.

Lemma dict_get_set_other (d : cache) (k k' : string) (v : cval) :
  k <> k' -> dict_get (dict_set d k v) k' = dict_get d k'.
Proof. intro H. rewrite dict_get_set. apply String.eqb_neq in H. rewrite H. reflexivity. Qed.

Lemma append_neq_self (a s : string) : s <> "" -> a <> a +s+ s.
Proof.
  intros Hs H. apply (f_equal String.length) in H. rewrite append_length in H.
  destruct s; [contradiction | simpl in H; lia].
Qed.

Lemma cache_stock_frame (m : string) (d : cache) (c' : contract) (X : string) :
  stock_keys_avoid X c' -> dict_get (cache_stock m d c') X = dict_get d X.
Proof.
  unfold cache_stock, stock_keys_avoid. intro H.
  destruct (c_code c') as [k' |]; [| reflexivity].
  destruct (H k' eq_refl) as (H1 & H2 & H3 & H4).
  destruct (is_warrant c');
    repeat (rewrite dict_get_set_other by congruence); reflexivity.
Qed.

Lemma fold_cache_stock_frame (m : string) (l : list contract) (d : cache) (X : string) :
  (forall c', In c' l -> stock_keys_avoid X c') ->
  dict_get (fold_left (cache_stock m) l d) X = dict_get d X.
Proof.
  revert d; induction l as [| c' l IH]; intros d H; simpl; [reflexivity |].
  rewrite IH by (intros; apply H; simpl; auto).
  apply cache_stock_frame. apply H. simpl. auto.
Qed.

Lemma fold_cache_class_frame (p m : string) (l : list contract) (d : cache) (X : string) :
  (forall k', X <> p +s+ k' /\ X <> (p +s+ k') +s+ "_market") ->
  dict_get (fold_left (cache_class p m) l d) X = dict_get d X.
Proof.
  intro H. revert d; induction l as [| c' l IH]; intros d; simpl; [reflexivity |].
  rewrite IH. unfold cache_class. destruct (c_code c') as [k' |]; [| reflexivity].
  destruct (H k') as [H1 H2].
  repeat (rewrite dict_get_set_other by congruence). reflexivity.
Qed.

(** The four keys of a warrant with code [k] are avoided by a stock contract
    whose code [k'] is neither [k], nor [k] followed by ["_market"], nor a
    code that followed by ["_market"] gives [k]. *)
Lemma warrant_keys_avoided (k : string) (c' : contract) :
  (forall k', c_code c' = Some k' -> k' <> k /\ k' <> k +s+ "_market" /\ k <> k' +s+ "_market") ->
  stock_keys_avoid ("stock_" +s+ k) c' /\ stock_keys_avoid (("stock_" +s+ k) +s+ "_market") c' /\
  stock_keys_avoid ("warrant_" +s+ k) c' /\ stock_keys_avoid (("warrant_" +s+ k) +s+ "_market") c'.
Proof.
  intro Hrel.
  assert (Hcr : forall p a b, (p +s+ a) +s+ "_market" = (p +s+ b) +s+ "_market" -> a = b).
  { intros p a b E. apply append_cancel_r in E. exact (append_cancel_l _ _ _ E). }
  assert (Hsh : forall p a b, p +s+ a = (p +s+ b) +s+ "_market" -> a = b +s+ "_market").
  { intros p a b E. rewrite append_assoc_str in E. exact (append_cancel_l _ _ _ E). }
  unfold stock_keys_avoid.
  split; [| split; [| split]]; intros k' Hk'; destruct (Hrel k' Hk') as (N1 & N2 & N3);
    repeat split; intro E;
    first [ simpl in E; discriminate E
          | apply N1; symmetry; exact (append_cancel_l _ _ _ E)
          | exact (N3 (Hsh _ _ _ E))
          | apply N2; exact (Hsh _ _ _ (eq_sym E))
          | apply N1; symmetry; exact (Hcr _ _ _ E) ].
Qed.

Lemma cache_stock_warrant_entries (m : string) (d : cache) (c : contract) (k : string) :
  c_code c = Some k -> is_warrant c = true ->
  warrant_entries (cache_stock m d c) c k m (m +s+ "_Warrant").
Proof.
  intros Hk Hw. unfold cache_stock, warrant_entries. rewrite Hk, Hw.
  assert (Dp : forall a b, "warrant_" +s+ a <> "stock_" +s+ b) by (intros a b E; discriminate E).
  assert (Dq : forall a b, ("warrant_" +s+ a) +s+ "_market" <> "stock_" +s+ b)
    by (intros a b E; discriminate E).
  assert (Dr : forall a b, "warrant_" +s+ a <> ("stock_" +s+ b) +s+ "_market")
    by (intros a b E; discriminate E).
  assert (Ds : forall a b, ("warrant_" +s+ a) +s+ "_market" <> ("stock_" +s+ b) +s+ "_market")
    by (intros a b E; discriminate E).
  assert (Ns : forall a, ("stock_" +s+ a) +s+ "_market" <> "stock_" +s+ a)
    by (intros a E; symmetry in E; revert E; apply append_neq_self; discriminate).
  assert (Nw : forall a, ("warrant_" +s+ a) +s+ "_market" <> "warrant_" +s+ a)
    by (intros a E; symmetry in E; revert E; apply append_neq_self; discriminate).
  split; [| split; [| split]].
  - rewrite !dict_get_set_other by auto. apply dict_get_set_same.
  - rewrite !dict_get_set_other by auto. apply dict_get_set_same.
  - rewrite dict_get_set_other by auto. apply dict_get_set_same.
  - apply dict_get_set_same.
Qed.

Lemma warrant_entries_frame (d d' : cache) (c : contract) (k l wl : string) :
  (forall X, X = "stock_" +s+ k \/ X = ("stock_" +s+ k) +s+ "_market" \/
             X = "warrant_" +s+ k \/ X = ("warrant_" +s+ k) +s+ "_market" ->
             dict_get d' X = dict_get d X) ->
  warrant_entries d c k l wl -> warrant_entries d' c k l wl.
Proof.
  intros H (H1 & H2 & H3 & H4). unfold warrant_entries.
  rewrite !H by auto. auto.
Qed.

(** C8: a TSE contract [c] with code [k] and category ["Warrant"] gets, when
    population reaches it, the entries [stock_<k>] -> ([c], "TSE") and
    [warrant_<k>] -> ([c], "TSE_Warrant"), whatever the cache held.  Both stay
    reachable in the populated cache when no stock contract handled after [c]
    (later in TSE, in OTC or in OES) writes over them: its code [k'] is not
    [k] (the spec's uniqueness of codes within the stock class), and neither
    [k'] = [k ++ "_market"] nor [k] = [k' ++ "_market"] (whose keys coincide
    with a [<key>_market] entry).  Futures and options keys never collide. *)
Theorem populate_warrant_alias (dir : directory) (pre post : list contract) (c : contract) (k : string) :
  d_TSE dir = pre ++ c :: post ->
  c_code c = Some k -> is_warrant c = true ->
  (forall d, warrant_entries (cache_stock "TSE" d c) c k "TSE" "TSE_Warrant") /\
  ((forall c' k', (In c' post \/ In c' (d_OTC dir) \/ (exists oes, d_OES dir = Some oes /\ In c' oes)) ->
                  c_code c' = Some k' -> k' <> k /\ k' <> k +s+ "_market" /\ k <> k' +s+ "_market") ->
   warrant_entries (populate dir []) c k "TSE" "TSE_Warrant").
Proof.
  intros Htse Hk Hw.
  split; [intro d; exact (cache_stock_warrant_entries "TSE" d c k Hk Hw) |].
  intro Hrel.
  assert (Hav : forall c', (In c' post \/ In c' (d_OTC dir) \/
                            (exists oes, d_OES dir = Some oes /\ In c' oes)) ->
            forall X, X = "stock_" +s+ k \/ X = ("stock_" +s+ k) +s+ "_market" \/
                      X = "warrant_" +s+ k \/ X = ("warrant_" +s+ k) +s+ "_market" ->
            stock_keys_avoid X c').
  { intros c' Hin X HX.
    destruct (warrant_keys_avoided k c' (fun k' => Hrel c' k' Hin)) as (A1 & A2 & A3 & A4).
    destruct HX as [-> | [-> | [-> | ->]]]; assumption. }
  assert (Hcls : forall p, p = "futures_" \/ p = "options_" ->
            forall X, X = "stock_" +s+ k \/ X = ("stock_" +s+ k) +s+ "_market" \/
                      X = "warrant_" +s+ k \/ X = ("warrant_" +s+ k) +s+ "_market" ->
            forall k', X <> p +s+ k' /\ X <> (p +s+ k') +s+ "_market").
  { intros p Hp X HX k'.
    destruct Hp as [-> | ->]; destruct HX as [-> | [-> | [-> | ->]]];
      split; intro E; discriminate E. }
  unfold populate, stock_venues. cbn [fold_left].
  apply (warrant_entries_frame (fold_left (cache_class "futures_" "Futures") (d_Futures dir)
           (cache_venue (cache_venue (cache_venue [] ("TSE", Some (d_TSE dir)))
              ("OTC", Some (d_OTC dir))) ("OES", d_OES dir)))).
  { intros X HX. apply fold_cache_class_frame. apply Hcls; auto. }
  apply (warrant_entries_frame (cache_venue (cache_venue (cache_venue [] ("TSE", Some (d_TSE dir)))
              ("OTC", Some (d_OTC dir))) ("OES", d_OES dir))).
  { intros X HX. apply fold_cache_class_frame. apply Hcls; auto. }
  apply (warrant_entries_frame (cache_venue (cache_venue [] ("TSE", Some (d_TSE dir)))
              ("OTC", Some (d_OTC dir)))).
  { intros X HX. unfold cache_venue at 1; simpl snd.
    destruct (d_OES dir) as [oes |] eqn:Hoes; [| reflexivity].
    apply fold_cache_stock_frame. intros c' Hin. apply (Hav c'); eauto 6. }
  apply (warrant_entries_frame (cache_venue [] ("TSE", Some (d_TSE dir)))).
  { intros X HX. unfold cache_venue at 1; simpl snd; simpl fst.
    apply fold_cache_stock_frame. intros c' Hin. apply (Hav c'); auto. }
  unfold cache_venue; simpl snd; simpl fst. rewrite Htse, fold_left_app. cbn [fold_left].
  apply (warrant_entries_frame (cache_stock "TSE" (fold_left (cache_stock "TSE") pre []) c)).
  { intros X HX. apply fold_cache_stock_frame. intros c' Hin. apply (Hav c'); auto. }
  exact (cache_stock_warrant_entries "TSE" _ c k Hk Hw).
Qed.

Lemma populate_warrant_alias_witness :
  warrant_entries (populate dir_warrant []) warrant_tse "03001P" "TSE" "TSE_Warrant".
Proof.
  apply (proj2 (populate_warrant_alias dir_warrant [] [] warrant_tse "03001P" eq_refl eq_refl eq_refl)).
  intros c' k' Hin Hk'.
  destruct Hin as [[] | [[<- | []] | [oes [Hoes Hin]]]].
  - injection Hk' as <-. repeat split; discriminate.
  - injection Hoes as <-. destruct Hin.
Defined.

(** ** Without a failed chunk the positional labelling is the chunk-wise one *)

Lemma combine_skipn {A B} (n : nat) (l : list A) (l' : list B) :
  skipn n (combine l l') = combine (skipn n l) (skipn n l').
Proof.
  revert l l'; induction n as [| n IH]; intros [| x l] [| y l']; simpl; auto.
  destruct (skipn n l); reflexivity.
Qed.

Lemma chunks_concat {A} (l : list A) (m j : nat) :
  (length l <= (j + m) * batch_size)%nat ->
  concat (map (fun i => firstn batch_size (skipn i l)) (map (fun x => (x * batch_size)%nat) (seq j m)))
  = skipn (j * batch_size) l.
Proof.
  revert j; induction m as [| m IH]; intros j Hle; cbn [seq map concat].
  - rewrite skipn_all2; [reflexivity | rewrite Nat.add_0_r in Hle; exact Hle].
  - rewrite IH by (replace (S j + m)%nat with (j + S m)%nat by lia; exact Hle).
    replace (S j * batch_size)%nat with (batch_size + j * batch_size)%nat by reflexivity.
    rewrite <- skipn_skipn. apply firstn_skipn.
Qed.

Lemma py_range0_cover (n : nat) :
  (n <= (0 + (n + batch_size - 1) / batch_size) * batch_size)%nat.
Proof.
  unfold batch_size. rewrite Nat.add_0_l.
  pose proof (Nat.div_mod (n + 200 - 1) 200 ltac:(discriminate)).
  pose proof (Nat.mod_upper_bound (n + 200 - 1) 200 ltac:(discriminate)). lia.
Qed.

Lemma skipn_nth_error {A} (l : list A) (i : nat) (x : A) :
  nth_error l i = Some x -> skipn i l = x :: skipn (S i) l.
Proof.
  revert i; induction l as [| y l IH]; intros [| i] H; simpl in *; try discriminate.
  - injection H as ->. reflexivity.
  - apply IH. exact H.
Qed.

Lemma format_quotes_combine (markets : list cval) (qs : list snapshot) (i : nat) :
  (i + length qs <= length markets)%nat ->
  format_quotes markets i qs = Some (map to_record (combine qs (skipn i markets))).
Proof.
  revert i; induction qs as [| q qs IH]; intros i Hle; simpl in *; [reflexivity |].
  destruct (nth_error markets i) as [m |] eqn:Hm; [| apply nth_error_None in Hm; lia].
  rewrite IH by lia. rewrite (skipn_nth_error markets i m Hm). reflexivity.
Qed.

Section AllChunksSucceed.
Variable snap : nat -> list cval -> outcome (list snapshot).
Variable f : cval -> snapshot.
(** Every snapshot call answers one quote per instrument, in order. *)
Hypothesis snap_ok : forall k b, snap k b = Ok (map f b).

Lemma batch_fold_quotes (cs : list cval) (starts : list nat) (q : list snapshot) (t : list event) :
  fst (fold_left (batch_step snap cs) starts (q, t)) =
  q ++ concat (map (fun i => map f (firstn batch_size (skipn i cs))) starts).
Proof.
  revert q t; induction starts as [| i starts IH]; intros q t; cbn [fold_left map concat].
  - rewrite app_nil_r. reflexivity.
  - assert (E : batch_step snap cs (q, t) i =
                (q ++ map f (firstn batch_size (skipn i cs)),
                 t ++ [EvSnapshot (firstn batch_size (skipn i cs)); EvSleep 1]))
      by (unfold batch_step; rewrite snap_ok; reflexivity).
    rewrite E, IH, app_assoc. reflexivity.
Qed.

Lemma spec_fold_records (cs markets : list cval) (starts : list nat) (acc : list quote_rec) :
  fold_left (fun acc i =>
      match snap (i / batch_size)%nat (firstn batch_size (skipn i cs)) with
      | Raised _ => acc
      | Ok qs => acc ++ label_chunk markets i qs
      end) starts acc =
  acc ++ concat (map (fun i => label_chunk markets i (map f (firstn batch_size (skipn i cs)))) starts).
Proof.
  revert acc; induction starts as [| i starts IH]; intro acc; cbn [fold_left map concat].
  - rewrite app_nil_r. reflexivity.
  - rewrite snap_ok, IH, app_assoc. reflexivity.
Qed.

(** When no snapshot call raises, record [i] of [fetch_all] carries the
    label of input instrument [i]: the positional labelling coincides with
    the chunk-wise pairing of [spec_labelled_quotes]. *)
Lemma format_labels_without_failed_chunk (cs markets : list cval) :
  length markets = length cs ->
  format_quotes markets 0 (fst (batch_query snap cs)) =
  Some (spec_labelled_quotes snap cs markets).
Proof.
  intro Hlen. unfold batch_query, spec_labelled_quotes, py_range0.
  rewrite batch_fold_quotes, spec_fold_records. cbn [app].
  pose proof (py_range0_cover (length cs)) as Hcov.
  set (m := ((length cs + batch_size - 1) / batch_size)%nat) in *.
  set (starts := map (fun j => (j * batch_size)%nat) (seq 0 m)).
  replace (map (fun i => map f (firstn batch_size (skipn i cs))) starts)
    with (map (map f) (map (fun i => firstn batch_size (skipn i cs)) starts))
    by (rewrite map_map; reflexivity).
  rewrite <- concat_map. unfold starts. rewrite chunks_concat by exact Hcov. simpl skipn.
  rewrite format_quotes_combine by (rewrite length_map; lia). f_equal.
  set (L := combine (map f cs) markets).
  assert (HL : (length L <= (0 + m) * batch_size)%nat)
    by (unfold L; rewrite length_combine, length_map, Hlen, Nat.min_id; exact Hcov).
  change (skipn 0 markets) with markets. fold L.
  change (map to_record L) with (map to_record (skipn (0 * batch_size) L)).
  rewrite <- (chunks_concat L m 0 HL), concat_map, map_map.
  f_equal. apply map_ext. intro i. unfold label_chunk, L.
  rewrite combine_skipn, combine_firstn, skipn_map, firstn_map. reflexivity.
Qed.
End AllChunksSucceed.

(** ** Further properties of the handlers *)

Lemma login_validate_status (env : login_env) (data : option jval) (r : response) :
  login_validate env data = inl r -> statusCode r = 400 \/ statusCode r = 500.
Proof.
  unfold login_validate. intro H.
  destruct data as [d |]; [| injection H as <-; auto].
  destruct (negb (truthy d)); [injection H as <-; auto |].
  destruct d; try (injection H as <-; auto).
  destruct (missing_params _) as [| x l]; [| injection H as <-; auto].
  destruct (truthy _); [discriminate |].
  destruct (path_exists env _) as [[|] | e]; [discriminate | injection H as <-; auto | injection H as <-; auto].
Qed.

Lemma login_session_status (w : world) (env : login_env) (p : login_params) (w' : world) (r : response) :
  login_session w env p = (w', r) ->
  contract_cache w' = contract_cache w /\ (statusCode r = 200 \/ statusCode r = 500).
Proof.
  unfold login_session. intro H.
  destruct (new_session env _) as [s | e]; [| injection H as <- <-; auto].
  destruct (if truthy _ then Ok true else activate_ca env s) as [[|] | e];
    [| injection H as <- <-; auto | injection H as <- <-; auto].
  destruct (sdk_login env s) as [accounts | e]; [| injection H as <- <-; auto].
  destruct (fetch_contracts env s); injection H as <- <-; auto.
Qed.

(** login never touches [contract_cache]; every response is 200, 400 or
    500; and a 400 (empty body or missing parameters) leaves both globals as
    they were, so the previous session stays in place. *)
Theorem login_status_and_cache (w : world) (env : login_env) (data : option jval)
    (w' : world) (r : response) :
  login w env data = (w', r) ->
  contract_cache w' = contract_cache w /\
  (statusCode r = 200 \/ statusCode r = 400 \/ statusCode r = 500) /\
  (statusCode r = 400 -> w' = w).
Proof.
  intro Hrun. unfold login in Hrun.
  destruct (login_validate env data) as [r0 | p] eqn:Hval.
  - injection Hrun as <- <-. destruct (login_validate_status env data r0 Hval); auto.
  - destruct (login_session_status w env p w' r Hrun) as [Hc [H | H]];
      rewrite H; repeat split; auto; discriminate.
Qed.

(** With a truthy [simulation_mode], [login] neither checks that the CA
    file exists nor calls [activate_ca]: two SDK environments that differ
    only there give the same globals and the same response. *)
Theorem login_simulation_skips_ca (w : world) (env1 env2 : login_env)
    (fields : list (string * jval)) :
  truthy (obj_get fields "simulation_mode" (JBool false)) = true ->
  new_session env1 = new_session env2 ->
  sdk_login env1 = sdk_login env2 ->
  fetch_contracts env1 = fetch_contracts env2 ->
  login w env1 (Some (JObj fields)) = login w env2 (Some (JObj fields)).
Proof.
  intros Hsim Hn Hl Hf.
  destruct env1 as [ce1 ns1 ac1 sl1 fc1], env2 as [ce2 ns2 ac2 sl2 fc2]; simpl in *; subst.
  destruct fields as [| kv fields']; [discriminate Hsim |].
  unfold login, login_validate, login_session, missing_params. cbn -[obj_get].
  rewrite !Hsim. cbn -[obj_get].
  destruct (_ ++ _); [| reflexivity].
  change (p_simulation_mode ?p) with (obj_get (kv :: fields') "simulation_mode" (JBool false)).
  rewrite Hsim. reflexivity.
Qed.

(** In simulation mode only [api_key] and [secret_key] are required: with
    both truthy and the constructor, [api.login] and [fetch_contracts]
    succeeding, [login] answers 200 with the accounts and installs the new
    session, whatever [ca_password], [person_id] and [ca_path] are. *)
Theorem login_simulation_success (w : world) (env : login_env) (fields : list (string * jval))
    (s : session) (accounts : list string) :
  truthy (obj_get fields "simulation_mode" (JBool false)) = true ->
  truthy (obj_get fields "api_key" JNull) = true ->
  truthy (obj_get fields "secret_key" JNull) = true ->
  new_session env (obj_get fields "simulation_mode" (JBool false)) = Ok s ->
  sdk_login env s = Ok accounts ->
  fetch_contracts env s = Ok tt ->
  login w env (Some (JObj fields)) =
    (mk_world (Some s) (contract_cache w), mk_response 200 (BLogin accounts)).
Proof.
  intros Hsim Hak Hsk Hn Hl Hf.
  destruct fields as [| kv fields']; [discriminate Hsim |].
  unfold login, login_validate, login_session, missing_params. cbn -[obj_get].
  rewrite Hsim, Hak, Hsk. cbn -[obj_get]. rewrite Hn, Hsim, Hl, Hf. reflexivity.
Qed.

(** In real mode with all four credentials present, [login] checks the CA
    path (the default [/app/Sinopac.pfx] when none is given) before any
    session is built, and both globals stay as they were when the check
    fails: a path [os.path.exists] reports missing answers 500
    "CA file not found at <str(path)>", and a path it rejects with
    [TypeError] (null, a list or an object) answers 500 "Error in login: <message>". *)
Theorem login_ca_file_missing (w : world) (env : login_env) (fields : list (string * jval)) :
  let ca_path := obj_get fields "ca_path" (JStr "/app/Sinopac.pfx") in
  truthy (obj_get fields "simulation_mode" (JBool false)) = false ->
  truthy (obj_get fields "api_key" JNull) = true ->
  truthy (obj_get fields "secret_key" JNull) = true ->
  truthy (obj_get fields "ca_password" JNull) = true ->
  truthy (obj_get fields "person_id" JNull) = true ->
  (path_exists env ca_path = Ok false ->
   login w env (Some (JObj fields)) = (w, err 500 ("CA file not found at " +s+ py_str ca_path))) /\
  (forall e, path_exists env ca_path = Raised e ->
   login w env (Some (JObj fields)) = (w, login_error e)).
Proof.
  intros ca_path Hsim Hak Hsk Hpw Hpid.
  destruct fields as [| kv fields']; [discriminate Hak |].
  unfold login, login_validate, missing_params. cbn -[obj_get path_exists].
  rewrite Hsim, Hak, Hsk, Hpw, Hpid. cbn -[obj_get path_exists].
  fold ca_path.
  split; [intro Hca | intros e Hca]; rewrite Hca; reflexivity.
Qed.

(** A 200 from [login] means every step ran and succeeded: validation, the
    constructor, CA activation (unless in simulation mode), [api.login] and
    [api.fetch_contracts]; the body carries the accounts [api.login]
    returned and [api] is the new session. *)
Theorem login_200_requires_every_step (w : world) (env : login_env) (data : option jval)
    (w' : world) (r : response) :
  login w env data = (w', r) -> statusCode r = 200 ->
  exists p s accounts,
    login_validate env data = inr p /\
    new_session env (p_simulation_mode p) = Ok s /\
    (truthy (p_simulation_mode p) = true \/ activate_ca env s = Ok true) /\
    sdk_login env s = Ok accounts /\
    fetch_contracts env s = Ok tt /\
    w' = mk_world (Some s) (contract_cache w) /\
    r = mk_response 200 (BLogin accounts).
Proof.
  intros Hrun H200. unfold login in Hrun.
  destruct (login_validate env data) as [r0 | p] eqn:Hval.
  - injection Hrun as <- <-. destruct (login_validate_status env data r0 Hval) as [H | H];
      rewrite H in H200; discriminate.
  - unfold login_session in Hrun.
    destruct (new_session env _) as [s | e] eqn:Hn; [| injection Hrun as <- <-; discriminate].
    assert (Hact : truthy (p_simulation_mode p) = true \/ activate_ca env s = Ok true ->
                   (if truthy (p_simulation_mode p) then Ok true else activate_ca env s) = Ok true).
    { destruct (truthy _); [reflexivity | intros [H | H]; [discriminate | exact H]]. }
    destruct (truthy (p_simulation_mode p)) eqn:Hsim;
      [| destruct (activate_ca env s) as [[|] | e] eqn:Ha];
      try (injection Hrun as <- <-; discriminate);
      (destruct (sdk_login env s) as [accounts | e] eqn:Hl; [| injection Hrun as <- <-; discriminate]);
      (destruct (fetch_contracts env s) as [[] | e] eqn:Hf; injection Hrun as <- <-; [| discriminate]);
      exists p, s, accounts; repeat split; auto.
Qed.
Lemma snapshot_batches_app (t t' : list event) :
  snapshot_batches (t ++ t') = snapshot_batches t ++ snapshot_batches t'.
Proof. unfold snapshot_batches. apply flat_map_app. Qed.

Lemma sleep_count_app (t t' : list event) :
  sleep_count (t ++ t') = (sleep_count t + sleep_count t')%nat.
Proof. unfold sleep_count. rewrite filter_app, length_app. reflexivity. Qed.

Lemma batch_fold_closed snap (cs : list cval) (starts : list nat) (q : list snapshot) (t : list event) :
  let st := fold_left (batch_step snap cs) starts (q, t) in
  fst st = q ++ concat (map (fun i => answer_quotes (snap (i / batch_size)%nat (chunk cs i))) starts) /\
  snapshot_batches (snd st) = snapshot_batches t ++ map (chunk cs) starts /\
  sleep_count (snd st) =
    (sleep_count t + length (filter (fun i => answered (snap (i / batch_size)%nat (chunk cs i))) starts))%nat.
Proof.
  revert q t; induction starts as [| i starts IH]; intros q t; cbn [fold_left map concat filter].
  - rewrite !app_nil_r. simpl. auto.
  - destruct (snap (i / batch_size)%nat (chunk cs i)) as [qs | e] eqn:E.
    + replace (batch_step snap cs (q, t) i)
        with (q ++ qs, t ++ [EvSnapshot (chunk cs i); EvSleep 1])
        by (unfold batch_step; fold (chunk cs i); rewrite E; reflexivity).
      destruct (IH (q ++ qs) (t ++ [EvSnapshot (chunk cs i); EvSleep 1])) as (H1 & H2 & H3).
      cbv zeta in H1, H2, H3. rewrite H1, H2, H3, snapshot_batches_app, sleep_count_app.
      rewrite <- !app_assoc. simpl answer_quotes. simpl answered.
      repeat split; try reflexivity.
      change (sleep_count [EvSnapshot (chunk cs i); EvSleep 1]) with 1%nat. cbn [length]. lia.
    + replace (batch_step snap cs (q, t) i)
        with (q, t ++ [EvSnapshot (chunk cs i)])
        by (unfold batch_step; fold (chunk cs i); rewrite E; reflexivity).
      destruct (IH q (t ++ [EvSnapshot (chunk cs i)])) as (H1 & H2 & H3).
      cbv zeta in H1, H2, H3. rewrite H1, H2, H3, snapshot_batches_app, sleep_count_app.
      rewrite <- !app_assoc. simpl answer_quotes. simpl answered.
      repeat split; try reflexivity.
      change (sleep_count [EvSnapshot (chunk cs i)]) with 0%nat. lia.
Qed.

Lemma batch_query_batches snap (cs : list cval) :
  snapshot_batches (snd (batch_query snap cs)) = map (chunk cs) (py_range0 (length cs) batch_size).
Proof.
  unfold batch_query.
  destruct (batch_fold_closed snap cs (py_range0 (length cs) batch_size) [] []) as (_ & Hb & _).
  exact Hb.
Qed.

Lemma batch_query_concat snap (cs : list cval) :
  concat (snapshot_batches (snd (batch_query snap cs))) = cs.
Proof.
  rewrite batch_query_batches. unfold py_range0, chunk.
  pose proof (py_range0_cover (length cs)) as Hcov.
  rewrite map_map.
  pose proof (chunks_concat cs _ 0 Hcov) as Hc. rewrite map_map in Hc. exact Hc.
Qed.

(** The batch loop cuts the instrument list into consecutive slices: the
    batches sent to [api.snapshots] concatenate back to the list, there are
    ceil(n / 200) of them, and each holds between 1 and 200 instruments.
    This holds whichever calls raise. *)
Theorem batch_query_partitions snap (cs : list cval) :
  let batches := snapshot_batches (snd (batch_query snap cs)) in
  concat batches = cs /\
  length batches = ((length cs + batch_size - 1) / batch_size)%nat /\
  (forall b, In b batches -> (0 < length b <= batch_size)%nat).
Proof.
  intro batches. split; [apply batch_query_concat |].
  unfold batches. rewrite batch_query_batches. unfold py_range0.
  set (m := ((length cs + batch_size - 1) / batch_size)%nat).
  split.
  - rewrite !length_map, length_seq. reflexivity.
  - intros b Hin. apply in_map_iff in Hin as [i [<- Hi]].
    apply in_map_iff in Hi as [j [<- Hj]]. apply in_seq in Hj.
    assert (Hdiv : (batch_size * m <= length cs + batch_size - 1)%nat) by apply Nat.Div0.mul_div_le.
    unfold chunk. rewrite length_firstn, length_skipn.
    unfold batch_size in *. nia.
Qed.

(** The [quotes] list is the concatenation, in call order, of the answers
    of the calls that did not raise; the number of one-second pauses is the
    number of those calls. *)
Theorem batch_query_collects snap (cs : list cval) :
  let starts := py_range0 (length cs) batch_size in
  fst (batch_query snap cs) =
    concat (map (fun i => answer_quotes (snap (i / batch_size)%nat (chunk cs i))) starts) /\
  sleep_count (snd (batch_query snap cs)) =
    length (filter (fun i => answered (snap (i / batch_size)%nat (chunk cs i))) starts).
Proof.
  intro starts. unfold batch_query. fold starts.
  destruct (batch_fold_closed snap cs starts [] []) as (H1 & _ & H3).
  cbv zeta in H1, H3. rewrite H1, H3. split; reflexivity.
Qed.

Lemma substring_append (x y : string) (n : nat) :
  substring (String.length x) n (x +s+ y) = substring 0 n y.
Proof. induction x as [| a x IH]; [reflexivity | exact IH]. Qed.

Lemma is_market_key_append (x : string) : is_market_key (x +s+ "_market") = true.
Proof.
  unfold is_market_key, ends_with. rewrite append_length.
  replace (String.length x + String.length "_market" - String.length "_market")%nat
    with (String.length x) by lia.
  rewrite substring_append. apply andb_true_intro. split; [apply Nat.leb_le; lia | reflexivity].
Qed.

Lemma keys_dict_set (d : cache) (k k' : string) (v : cval) :
  In k' (map fst (dict_set d k v)) <-> k' = k \/ In k' (map fst d).
Proof.
  induction d as [| [k0 v0] d IH]; simpl; [split; intros [H | []]; auto |].
  destruct (String.eqb k0 k) eqn:E; simpl.
  - apply String.eqb_eq in E. subst k0.
    split; [intros [H | H]; auto | intros [H | [H | H]]; auto].
  - rewrite IH. tauto.
Qed.

Lemma in_dict_set_str (d : cache) (k k' : string) (v : cval) (x : string) :
  In (k', VStr x) (dict_set d k v) -> (k' = k /\ v = VStr x) \/ In (k', VStr x) d.
Proof.
  induction d as [| [k0 v0] d IH]; simpl.
  - intros [H | []]. injection H as -> ->. auto.
  - destruct (String.eqb k0 k) eqn:E; simpl.
    + apply String.eqb_eq in E. subst k0.
      intros [H | H]; [injection H as -> ->; auto | auto].
    + intros [H | H]; [auto |]. destruct (IH H); auto.
Qed.

Lemma labelled_set_pair (d : cache) (k m : string) (c : contract) :
  labelled_cache d ->
  labelled_cache (dict_set (dict_set d k (VContract c)) (k +s+ "_market") (VStr m)).
Proof.
  intros [Hkeys Hstr]. split.
  - intros k' Hin Hk'.
    apply keys_dict_set in Hin as [-> | Hin];
      [rewrite is_market_key_append in Hk'; discriminate |].
    apply keys_dict_set.
    apply keys_dict_set in Hin as [-> | Hin]; [left; reflexivity |].
    right. apply keys_dict_set. right. exact (Hkeys k' Hin Hk').
  - intros k' x Hin.
    apply in_dict_set_str in Hin as [[-> _] | Hin]; [apply is_market_key_append |].
    apply in_dict_set_str in Hin as [[_ E] | Hin]; [discriminate E | exact (Hstr k' x Hin)].
Qed.

Lemma cache_stock_labelled (m : string) (d : cache) (c : contract) :
  labelled_cache d -> labelled_cache (cache_stock m d c).
Proof.
  intro H. unfold cache_stock. destruct (c_code c) as [code |]; [| exact H].
  cbv zeta. destruct (is_warrant c); [apply labelled_set_pair |]; apply labelled_set_pair; exact H.
Qed.

Lemma cache_class_labelled (p m : string) (d : cache) (c : contract) :
  labelled_cache d -> labelled_cache (cache_class p m d c).
Proof.
  intro H. unfold cache_class. destruct (c_code c) as [code |]; [| exact H].
  cbv zeta. apply labelled_set_pair. exact H.
Qed.

Lemma fold_labelled {A} (step : cache -> A -> cache) (l : list A) (d : cache) :
  (forall d a, labelled_cache d -> labelled_cache (step d a)) ->
  labelled_cache d -> labelled_cache (fold_left step l d).
Proof.
  intro Hstep. revert d; induction l as [| a l IH]; intros d Hd; simpl; auto.
Qed.

Lemma populate_labelled (dir : directory) (d : cache) :
  labelled_cache d -> labelled_cache (populate dir d).
Proof.
  intro Hd. unfold populate.
  apply fold_labelled; [intros; apply cache_class_labelled; assumption |].
  apply fold_labelled; [intros; apply cache_class_labelled; assumption |].
  apply fold_labelled; [| exact Hd].
  intros d' [m [container |]] H; simpl; [| exact H].
  unfold cache_venue; simpl. apply fold_labelled; [| exact H].
  intros; apply cache_stock_labelled; assumption.
Qed.

Lemma dict_get_in_keys (d : cache) (k : string) :
  In k (map fst d) -> exists v, dict_get d k = Some v.
Proof.
  induction d as [| [k0 v0] d IH]; simpl; [intros [] |].
  destruct (String.eqb k0 k) eqn:E; [eauto |].
  intros [-> | H]; [rewrite String.eqb_refl in E; discriminate | auto].
Qed.

Lemma collect_markets_from_some (full items : cache) :
  (forall k, In k (map fst items) -> is_market_key k = false ->
             In (k +s+ "_market") (map fst full)) ->
  exists ms, collect_markets_from full items = Ok ms.
Proof.
  induction items as [| [k v] items IH]; intro H; simpl; [eauto |].
  destruct IH as [ms Hms]; [intros k' Hk'; apply H; simpl; auto |].
  destruct (is_market_key k) eqn:Ek; [eauto |].
  destruct (dict_get_in_keys full (k +s+ "_market") (H k (or_introl eq_refl) Ek)) as [m ->].
  rewrite Hms. eauto.
Qed.



Lemma labelled_contracts (d : cache) (v : cval) :
  labelled_cache d -> In v (collect_contracts d) -> exists c, v = VContract c.
Proof.
  intros [_ Hstr] Hin. unfold collect_contracts in Hin.
  apply in_map_iff in Hin as [[k v'] [<- Hin]]. apply filter_In in Hin as [Hin Hk].
  simpl in *. destruct v' as [c | x]; [eauto |].
  rewrite (Hstr k x Hin) in Hk. discriminate.
Qed.

Lemma populate_markets_some (dir : directory) :
  exists ms, collect_markets (populate dir []) = Ok ms.
Proof.
  apply collect_markets_from_some. apply populate_labelled.
  split; [intros k [] | intros k x []].
Qed.

(** On a cache filled by the population loop, line 154 never raises
    [KeyError]: every instrument key has its [_market] entry, so there is one
    label per instrument.  Only contract handles (never a label string) are
    sent to [api.snapshots]. *)
Theorem populate_labels_every_contract (dir : directory) :
  let d := populate dir [] in
  (exists ms, collect_markets d = Ok ms /\ length ms = length (collect_contracts d)) /\
  (forall v, In v (collect_contracts d) -> exists c, v = VContract c).
Proof.
  intro d.
  assert (Hl : labelled_cache d).
  { apply populate_labelled. split; [intros k [] | intros k x []]. }
  split.
  - destruct (collect_markets_from_some d d (proj1 Hl)) as [ms Hms].
    exists ms. split; [exact Hms | apply collect_markets_length; exact Hms].
  - intros v Hv. exact (labelled_contracts d v Hl Hv).
Qed.

Lemma fetch_all_ready (w : world) (s : session) (rss bytes limit_bytes : Z)
    (d : cache) (tr_pop : list event) :
  api w = Some s -> s_usage s = Ok (bytes, limit_bytes) ->
  over_traffic_limit bytes limit_bytes = false -> over_memory_limit rss = false ->
  (contract_cache w = [] /\ d = populate (s_contracts s) [] /\ tr_pop = populate_events) \/
  (contract_cache w <> [] /\ d = contract_cache w /\ tr_pop = []) ->
  fetch_all w rss =
    match collect_markets d with
    | Raised e => (mk_world (Some s) d, fetch_all_error e, [EvUsage; EvMemory] ++ tr_pop)
    | Ok markets =>
        let '(quotes, tr_b) := batch_query (s_snapshots s) (collect_contracts d) in
        match format_quotes markets 0 quotes with
        | None => (mk_world (Some s) d, fetch_all_error "list index out of range",
                   ([EvUsage; EvMemory] ++ tr_pop) ++ tr_b)
        | Some result => (mk_world (Some s) d, mk_response 200 (BQuotes result),
                          ([EvUsage; EvMemory] ++ tr_pop) ++ tr_b)
        end
    end.
Proof.
  intros Hapi Hu Ht Hm Hd. unfold fetch_all. rewrite Hapi, Hu, Ht, Hm.
  destruct Hd as [(Hc & -> & ->) | (Hc & -> & ->)].
  - rewrite Hc. reflexivity.
  - destruct (contract_cache w) as [| kv d]; [contradiction | reflexivity].
Qed.

Lemma format_quotes_spec (ms : list cval) (qs : list snapshot) (i : nat) (rs : list quote_rec) :
  format_quotes ms i qs = Some rs ->
  map record_fields rs = map snapshot_fields qs /\
  map r_market rs = firstn (length qs) (skipn i ms) /\
  (length qs <= length (skipn i ms))%nat.
Proof.
  revert i rs; induction qs as [| q qs IH]; intros i rs H; simpl in H.
  - injection H as <-. simpl. repeat split; lia.
  - destruct (nth_error ms i) as [m |] eqn:Hm; [| discriminate].
    destruct (format_quotes ms (S i) qs) as [rs' |] eqn:Hrs; [| discriminate].
    injection H as <-. destruct (IH (S i) rs' Hrs) as (H1 & H2 & H3).
    rewrite (skipn_nth_error ms i m Hm). cbn [map firstn length]. rewrite H1, H2.
    split; [reflexivity | split; [reflexivity | lia]].
Qed.

(** A 200 from [fetch_all] carries one record per returned quote, in order,
    copying its code, close and timestamp.  Record [i] carries
    [markets[i]], and there are never more records than cached
    instruments. *)
Theorem fetch_all_200_records (w : world) (s : session) (rss : Z)
    (w' : world) (r : response) (tr : list event) :
  api w = Some s -> fetch_all w rss = (w', r, tr) -> statusCode r = 200 ->
  let d := contract_cache w' in
  let quotes := fst (batch_query (s_snapshots s) (collect_contracts d)) in
  api w' = Some s /\
  exists rs ms, r = mk_response 200 (BQuotes rs) /\ collect_markets d = Ok ms /\
    map record_fields rs = map snapshot_fields quotes /\
    map r_market rs = firstn (length quotes) ms /\
    (length quotes <= length (collect_contracts d))%nat.
Proof.
  intros Hapi Hrun H200 d quotes.
  destruct (s_usage s) as [[bytes limit_bytes] | e] eqn:Hu;
    [| unfold fetch_all in Hrun; rewrite Hapi, Hu in Hrun;
       injection Hrun as _ <- _; discriminate].
  destruct (over_traffic_limit bytes limit_bytes) eqn:Ht;
    [unfold fetch_all in Hrun; rewrite Hapi, Hu, Ht in Hrun;
     injection Hrun as _ <- _; discriminate |].
  destruct (over_memory_limit rss) eqn:Hm;
    [unfold fetch_all in Hrun; rewrite Hapi, Hu, Ht, Hm in Hrun;
     injection Hrun as _ <- _; discriminate |].
  assert (Hd : exists d0 tr_pop,
    (contract_cache w = [] /\ d0 = populate (s_contracts s) [] /\ tr_pop = populate_events) \/
    (contract_cache w <> [] /\ d0 = contract_cache w /\ tr_pop = [])).
  { destruct (contract_cache w) as [| kv c] eqn:Hc.
    - exists (populate (s_contracts s) []), populate_events. left. auto.
    - exists (kv :: c), []. right. split; [discriminate | auto]. }
  destruct Hd as (d0 & tr_pop & Hd).
  rewrite (fetch_all_ready w s rss bytes limit_bytes d0 tr_pop Hapi Hu Ht Hm Hd) in Hrun.
  destruct (collect_markets d0) as [ms |] eqn:Hms; [| injection Hrun as _ <- _; discriminate].
  destruct (batch_query (s_snapshots s) (collect_contracts d0)) as [qs tr_b] eqn:Hb.
  destruct (format_quotes ms 0 qs) as [rs |] eqn:Hf; [| injection Hrun as _ <- _; discriminate].
  injection Hrun as <- <- _.
  unfold quotes, d; cbn [contract_cache api]. rewrite Hb; cbn [fst].
  destruct (format_quotes_spec ms qs 0 rs Hf) as (H1 & H2 & H3).
  split; [reflexivity |]. exists rs, ms.
  rewrite <- (collect_markets_length d0 ms Hms). simpl skipn in H2, H3. auto.
Qed.

(** On an empty cache, once both gates pass, [fetch_all] keeps the
    populated cache whatever the response.  Its five [api.Contracts]
    accesses all come before any snapshot call; the snapshot calls cover the
    populated instruments exactly; and the response is never the [KeyError]
    500. *)
Theorem fetch_all_cold_cache_populates (w : world) (s : session) (rss bytes limit_bytes : Z)
    (w' : world) (r : response) (tr : list event) :
  api w = Some s -> contract_cache w = [] -> s_usage s = Ok (bytes, limit_bytes) ->
  over_traffic_limit bytes limit_bytes = false -> over_memory_limit rss = false ->
  fetch_all w rss = (w', r, tr) ->
  w' = mk_world (Some s) (populate (s_contracts s) []) /\
  (forall k, r <> fetch_all_error (py_repr k)) /\
  exists tr_b, tr = [EvUsage; EvMemory] ++ populate_events ++ tr_b /\
    (forall e, In e tr_b -> batch_event e) /\
    concat (snapshot_batches tr_b) = collect_contracts (contract_cache w').
Proof.
  intros Hapi Hc Hu Ht Hm Hrun.
  rewrite (fetch_all_ready w s rss bytes limit_bytes (populate (s_contracts s) []) populate_events
             Hapi Hu Ht Hm (or_introl (conj Hc (conj eq_refl eq_refl)))) in Hrun.
  destruct (populate_markets_some (s_contracts s)) as [ms Hms]. rewrite Hms in Hrun.
  destruct (batch_query (s_snapshots s) (collect_contracts (populate (s_contracts s) []))) as [qs tr_b] eqn:Hb.
  assert (Hev : forall e, In e tr_b -> batch_event e).
  { intros e He. apply (batch_query_events (s_snapshots s) (collect_contracts (populate (s_contracts s) []))).
    rewrite Hb. exact He. }
  assert (Hcat : concat (snapshot_batches tr_b) = collect_contracts (populate (s_contracts s) [])).
  { pose proof (batch_query_concat (s_snapshots s) (collect_contracts (populate (s_contracts s) []))) as H.
    rewrite Hb in H. exact H. }
  destruct (format_quotes ms 0 qs); injection Hrun as <- <- <-;
    (split; [reflexivity | split; [intros k H | exists tr_b; (split; [reflexivity | auto])]]).
  - inversion H.
  - unfold fetch_all_error, err in H. injection H. cbn [String.append].
    unfold py_repr. destruct (_ && _); discriminate.
Qed.


Lemma fetch_all_warm_batches (w : world) (rss : Z) (w' : world) (r : response) (tr : list event) :
  contract_cache w <> [] -> fetch_all w rss = (w', r, tr) ->
  contract_cache w' = contract_cache w /\ api w' = api w /\ ~ In EvContracts tr /\
  (snapshot_batches tr = [] \/ concat (snapshot_batches tr) = collect_contracts (contract_cache w)).
Proof.
  intros Hne Hrun.
  destruct (api w) as [s |] eqn:Hapi;
    [| unfold fetch_all in Hrun; rewrite Hapi in Hrun; injection Hrun as <- <- <-;
       rewrite Hapi; simpl; auto].
  destruct (s_usage s) as [[bytes limit_bytes] | e] eqn:Hu;
    [| unfold fetch_all in Hrun; rewrite Hapi, Hu in Hrun; injection Hrun as <- <- <-;
       rewrite Hapi; simpl; intuition discriminate].
  destruct (over_traffic_limit bytes limit_bytes) eqn:Ht;
    [unfold fetch_all in Hrun; rewrite Hapi, Hu, Ht in Hrun; injection Hrun as <- <- <-;
     rewrite Hapi; simpl; intuition discriminate |].
  destruct (over_memory_limit rss) eqn:Hm;
    [unfold fetch_all in Hrun; rewrite Hapi, Hu, Ht, Hm in Hrun; injection Hrun as <- <- <-;
     rewrite Hapi; simpl; intuition discriminate |].
  rewrite (fetch_all_ready w s rss bytes limit_bytes (contract_cache w) []
             Hapi Hu Ht Hm (or_intror (conj Hne (conj eq_refl eq_refl)))) in Hrun.
  destruct (collect_markets (contract_cache w)) as [ms |];
    [| injection Hrun as <- <- <-; simpl; intuition discriminate].
  destruct (batch_query (s_snapshots s) (collect_contracts (contract_cache w))) as [qs tr_b] eqn:Hb.
  assert (Hev : ~ In EvContracts tr_b).
  { intro He. apply (batch_query_events (s_snapshots s) (collect_contracts (contract_cache w)) EvContracts).
    rewrite Hb. exact He. }
  assert (Hcat : concat (snapshot_batches tr_b) = collect_contracts (contract_cache w)).
  { pose proof (batch_query_concat (s_snapshots s) (collect_contracts (contract_cache w))) as H.
    rewrite Hb in H. exact H. }
  destruct (format_quotes ms 0 qs); injection Hrun as <- <- <-;
    (split; [reflexivity | split; [reflexivity |]]);
    (split; [simpl; intros [H | [H | H]]; [discriminate | discriminate | exact (Hev H)] |]);
    (right; exact Hcat).
Qed.

Lemma login_200_session (w : world) (env : login_env) (data : option jval) (w' : world) (r : response) :
  login w env data = (w', r) -> statusCode r = 200 ->
  exists p s, login_validate env data = inr p /\ new_session env (p_simulation_mode p) = Ok s /\
    w' = mk_world (Some s) (contract_cache w).
Proof.
  intros Hrun H200. unfold login in Hrun.
  destruct (login_validate env data) as [r0 | p] eqn:Hval.
  - injection Hrun as <- <-. exfalso.
    unfold login_validate in Hval.
    destruct data as [d |]; [| injection Hval as <-; discriminate].
    destruct (negb (truthy d)); [injection Hval as <-; discriminate |].
    destruct d; try (injection Hval as <-; discriminate).
    destruct (missing_params _) as [| x l]; [| injection Hval as <-; discriminate].
    destruct (truthy _); [discriminate |].
    destruct (path_exists env _) as [[|] | e];
      [discriminate | injection Hval as <-; discriminate | injection Hval as <-; discriminate].
  - unfold login_session in Hrun.
    destruct (new_session env _) as [s | e] eqn:Hn; [| injection Hrun as <- <-; discriminate].
    exists p, s. split; [reflexivity | split; [exact Hn |]].
    destruct (if truthy _ then Ok true else activate_ca env s) as [[|] | e];
      try (injection Hrun as <- <-; reflexivity).
    destruct (sdk_login env s); [| injection Hrun as <- <-; reflexivity].
    destruct (fetch_contracts env s); injection Hrun as <- <-; reflexivity.
Qed.

(** [login] does not clear [contract_cache]: after a successful re-login on a
    warm cache, [fetch_all] runs on the new session but makes no
    [api.Contracts] access.  Any snapshot calls it makes are exactly the
    handles cached under the earlier session, in order. *)
Theorem relogin_reuses_cached_handles (w : world) (env : login_env) (data : option jval)
    (w1 : world) (r1 : response) (rss : Z) (w2 : world) (r2 : response) (tr : list event) :
  contract_cache w <> [] ->
  login w env data = (w1, r1) -> statusCode r1 = 200 ->
  fetch_all w1 rss = (w2, r2, tr) ->
  (exists p s, login_validate env data = inr p /\ new_session env (p_simulation_mode p) = Ok s /\
               api w2 = Some s) /\
  contract_cache w2 = contract_cache w /\ ~ In EvContracts tr /\
  (snapshot_batches tr = [] \/ concat (snapshot_batches tr) = collect_contracts (contract_cache w)).
Proof.
  intros Hne Hlogin H200 Hrun.
  destruct (login_200_session w env data w1 r1 Hlogin H200) as (p & s & Hval & Hn & ->).
  destruct (fetch_all_warm_batches (mk_world (Some s) (contract_cache w)) rss w2 r2 tr Hne Hrun)
    as (Hc & Ha & Hev & Hb).
  simpl in Hc, Ha, Hb. split; [exists p, s; auto | auto].
Qed.

(** [quote] checks its arguments in source order: a missing or empty [code]
    is a 400 whatever the session; then an uninitialised session is a 500,
    whatever the type; then a type other than stock, futures or options is
    a 400 "Unsupported type". *)
Theorem quote_argument_checks (w : world) (t : option string) :
  quote w None t = err 400 "Missing parameter: code" /\
  quote w (Some "") t = err 400 "Missing parameter: code" /\
  forall code, code <> "" ->
    (api w = None -> quote w (Some code) t = err 500 "Shioaji API not initialized") /\
    (forall s ty, api w = Some s -> t = Some ty ->
       ty <> "stock" -> ty <> "futures" -> ty <> "options" ->
       quote w (Some code) t = err 400 ("Unsupported type: " +s+ ty)).
Proof.
  split; [reflexivity | split; [reflexivity |]].
  intros code Hcode. unfold quote.
  destruct code as [| ch code']; [contradiction |].
  split; [intro Hapi; rewrite Hapi; reflexivity |].
  intros s ty Hapi -> Hs Hf Ho. rewrite Hapi.
  apply String.eqb_neq in Hs, Hf, Ho. rewrite Hs, Hf, Ho. reflexivity.
Qed.

(** For [type=stock] the venues are probed in the order TSE, OTC, OES: a
    TSE hit wins without consulting OTC or OES; on a TSE miss an OTC hit
    wins whatever OES holds; OES is reached only when TSE and OTC both raise
    [KeyError] (a resolved market "OES" or "OES_Warrant" implies both
    missed); when every present venue misses, the answer is 500
    "Contract not found for code=<code>".  A warrant's market is relabelled
    [<venue>_Warrant]. *)
Theorem quote_stock_probe_order (w : world) (s : session) (code : string) (t : option string)
    (c : contract) :
  api w = Some s -> code <> "" -> t = None \/ t = Some "stock" ->
  let dir := s_contracts s in
  (getitem (d_TSE dir) code = Some c ->
   quote w (Some code) t = quote_snapshot s c (if is_warrant c then "TSE_Warrant" else "TSE") "stock") /\
  (getitem (d_TSE dir) code = None -> getitem (d_OTC dir) code = Some c ->
   quote w (Some code) t = quote_snapshot s c (if is_warrant c then "OTC_Warrant" else "OTC") "stock") /\
  (forall oes, getitem (d_TSE dir) code = None -> getitem (d_OTC dir) code = None ->
   d_OES dir = Some oes -> getitem oes code = Some c ->
   quote w (Some code) t = quote_snapshot s c (if is_warrant c then "OES_Warrant" else "OES") "stock") /\
  (getitem (d_TSE dir) code = None -> getitem (d_OTC dir) code = None ->
   (forall oes, d_OES dir = Some oes -> getitem oes code = None) ->
   quote w (Some code) t = err 500 ("Contract not found for code=" +s+ code)) /\
  (forall c' m, resolve_stock dir code = Some (c', m) -> m = "OES" \/ m = "OES_Warrant" ->
   getitem (d_TSE dir) code = None /\ getitem (d_OTC dir) code = None).
Proof.
  intros Hapi Hcode Ht dir.
  assert (Hq : forall o, resolve_stock dir code = o ->
                 quote w (Some code) t =
                   match o with
                   | None => err 500 ("Contract not found for code=" +s+ code)
                   | Some (c', m) => quote_snapshot s c' m "stock"
                   end).
  { intros o Hr. unfold quote. destruct code as [| ch code']; [contradiction |].
    rewrite Hapi. destruct Ht as [-> | ->]; simpl; fold dir; rewrite Hr; reflexivity. }
  split; [| split; [| split; [| split]]].
  - intro Htse. apply (Hq (Some (c, if is_warrant c then "TSE_Warrant" else "TSE"))).
    unfold resolve_stock, stock_venues; simpl. rewrite Htse.
    destruct (is_warrant c); reflexivity.
  - intros Htse Hotc. apply (Hq (Some (c, if is_warrant c then "OTC_Warrant" else "OTC"))).
    unfold resolve_stock, stock_venues; simpl. rewrite Htse, Hotc.
    destruct (is_warrant c); reflexivity.
  - intros oes Htse Hotc Hoes Hc.
    apply (Hq (Some (c, if is_warrant c then "OES_Warrant" else "OES"))).
    unfold resolve_stock, stock_venues; simpl. rewrite Htse, Hotc, Hoes. simpl. rewrite Hc.
    destruct (is_warrant c); reflexivity.
  - intros Htse Hotc Hoes. apply (Hq None).
    unfold resolve_stock, stock_venues; simpl. rewrite Htse, Hotc.
    destruct (d_OES dir) as [oes |] eqn:E; [simpl; rewrite (Hoes oes eq_refl) | ]; reflexivity.
  - intros c' m Hr Hm. unfold resolve_stock, stock_venues in Hr; simpl in Hr.
    destruct (getitem (d_TSE dir) code) as [c1 |].
    + destruct (is_warrant c1); injection Hr as _ <-; destruct Hm as [Hm | Hm]; discriminate Hm.
    + destruct (getitem (d_OTC dir) code) as [c2 |]; [| split; reflexivity].
      destruct (is_warrant c2); injection Hr as _ <-; destruct Hm as [Hm | Hm]; discriminate Hm.
Qed.


(** Once a contract is resolved, [quote] answers 200 or 500.  It answers
    200 exactly when the first snapshot returned has both [close] and [ts];
    the body carries that snapshot, and the other elements of the answer
    are ignored. *)
Theorem quote_snapshot_outcome (s : session) (c : contract) (m t : string) :
  (statusCode (quote_snapshot s c m t) = 200 \/ statusCode (quote_snapshot s c m t) = 500) /\
  (forall q, quote_snapshot s c m t = mk_response 200 (BQuote q m t) <->
     exists rest, s_snapshots s 0 [VContract c] = Ok (q :: rest) /\
                  q_close q <> None /\ q_ts q <> None).
Proof.
  unfold quote_snapshot.
  destruct (s_snapshots s 0 [VContract c]) as [[| q' rest] | e].
  - split; [right; reflexivity |]. intro q. split.
    + intro H. discriminate H.
    + intros (rest & H & _). discriminate H.
  - destruct (q_close q') as [x |] eqn:Hc, (q_ts q') as [y |] eqn:Hts;
      (split; [simpl; auto |]); intro q; split;
      try (intro H; discriminate H).
    + intro H. injection H as <-. exists rest. rewrite Hc, Hts. split; [reflexivity | split; discriminate].
    + intros (rest' & H & _). injection H as <- _. reflexivity.
    + intros (rest' & H & H1 & H2). injection H as <- _. contradiction.
    + intros (rest' & H & H1 & H2). injection H as <- _. contradiction.
    + intros (rest' & H & H1 & H2). injection H as <- _. contradiction.
  - split; [right; reflexivity |]. intro q. split.
    + intro H. discriminate H.
    + intros (rest & H & _). discriminate H.
Qed.

(** ** Witnesses of the further properties *)

Lemma login_status_and_cache_witness :
  let w := mk_world (Some session0) cache_one in
  exists w' r, login w (env_with (Ok true)) (Some (JObj [("api_key", JStr "k")])) = (w', r) /\
    statusCode r = 400 /\ w' = w.
Proof.
  intro w. destruct (login w (env_with (Ok true)) (Some (JObj [("api_key", JStr "k")]))) as [w' r] eqn:Hrun.
  exists w', r. split; [reflexivity |].
  destruct (login_status_and_cache w _ _ w' r Hrun) as (_ & _ & H400).
  assert (Hs : statusCode r = 400) by (vm_compute in Hrun; injection Hrun as _ <-; reflexivity).
  split; [exact Hs | exact (H400 Hs)].
Defined.

Lemma login_simulation_skips_ca_witness :
  login (mk_world None []) (env_with (Ok false)) (Some login_data_sim) =
  login (mk_world None []) env_no_ca (Some login_data_sim).
Proof.
  apply (login_simulation_skips_ca (mk_world None []) (env_with (Ok false)) env_no_ca);
    reflexivity.
Defined.

Lemma login_simulation_success_witness :
  login (mk_world None cache_one) env_no_ca (Some login_data_sim) =
  (mk_world (Some session0) cache_one, mk_response 200 (BLogin ["acct"])).
Proof.
  exact (login_simulation_success (mk_world None cache_one) env_no_ca
           [("api_key", JStr "k"); ("secret_key", JStr "s"); ("simulation_mode", JBool true)]
           session0 ["acct"] eq_refl eq_refl eq_refl eq_refl eq_refl eq_refl).
Defined.

Lemma login_ca_file_missing_witness :
  login (mk_world None []) env_no_ca (Some login_data_real) =
    (mk_world None [], err 500 "CA file not found at /app/Sinopac.pfx") /\
  login (mk_world None []) env_no_ca (Some (JObj (("ca_path", JNum 999) :: login_fields_real))) =
    (mk_world None [], err 500 "CA file not found at 999") /\
  login (mk_world None []) env_no_ca (Some (JObj (("ca_path", JNull) :: login_fields_real))) =
    (mk_world None [],
     err 500 "Error in login: stat: path should be string, bytes, os.PathLike or integer, not NoneType").
Proof.
  split; [| split].
  - exact (proj1 (login_ca_file_missing (mk_world None []) env_no_ca login_fields_real
                    eq_refl eq_refl eq_refl eq_refl eq_refl) eq_refl).
  - exact (proj1 (login_ca_file_missing (mk_world None []) env_no_ca
                    (("ca_path", JNum 999) :: login_fields_real)
                    eq_refl eq_refl eq_refl eq_refl eq_refl) eq_refl).
  - exact (proj2 (login_ca_file_missing (mk_world None []) env_no_ca
                    (("ca_path", JNull) :: login_fields_real)
                    eq_refl eq_refl eq_refl eq_refl eq_refl) _ eq_refl).
Defined.

Lemma login_200_requires_every_step_witness :
  exists w' r p s accounts,
    login (mk_world None []) (env_with (Ok true)) (Some login_data_real) = (w', r) /\
    statusCode r = 200 /\
    login_validate (env_with (Ok true)) (Some login_data_real) = inr p /\
    new_session (env_with (Ok true)) (p_simulation_mode p) = Ok s /\
    sdk_login (env_with (Ok true)) s = Ok accounts.
Proof.
  destruct (login (mk_world None []) (env_with (Ok true)) (Some login_data_real)) as [w' r] eqn:Hrun.
  assert (Hs : statusCode r = 200) by (vm_compute in Hrun; injection Hrun as _ <-; reflexivity).
  destruct (login_200_requires_every_step _ _ _ w' r Hrun Hs)
    as (p & s & accounts & Hv & Hn & _ & Hl & _).
  exists w', r, p, s, accounts. auto.
Defined.

Lemma batch_query_partitions_witness :
  let batches := snapshot_batches (snd (batch_query snap_exact (repeat (VStr "x") 450))) in
  concat batches = repeat (VStr "x") 450 /\ length batches = 3%nat /\
  (forall b, In b batches -> (0 < length b <= batch_size)%nat).
Proof.
  intro batches.
  destruct (batch_query_partitions snap_exact (repeat (VStr "x") 450)) as (Hc & Hl & Hb).
  split; [exact Hc | split; [unfold batches; rewrite Hl; vm_compute; reflexivity | exact Hb]].
Defined.

Lemma populate_labels_every_contract_witness :
  length (collect_contracts (populate dir_warrant [])) = 4%nat /\
  (exists ms, collect_markets (populate dir_warrant []) = Ok ms /\ length ms = 4%nat) /\
  (forall v, In v (collect_contracts (populate dir_warrant [])) -> exists c, v = VContract c).
Proof.
  destruct (populate_labels_every_contract dir_warrant) as [[ms [Hms Hl]] Hv].
  assert (H4 : length (collect_contracts (populate dir_warrant [])) = 4%nat)
    by (vm_compute; reflexivity).
  split; [exact H4 | split; [exists ms; split; [exact Hms | rewrite Hl; exact H4] | exact Hv]].
Defined.

Lemma fetch_all_200_records_witness :
  exists w' r tr rs, fetch_all (fresh_world session_warrant) 0 = (w', r, tr) /\
    statusCode r = 200 /\ r = mk_response 200 (BQuotes rs) /\
    map record_fields rs =
      map snapshot_fields (fst (batch_query snap_exact (collect_contracts (contract_cache w')))).
Proof.
  destruct (fetch_all (fresh_world session_warrant) 0) as [[w' r] tr] eqn:Hrun.
  assert (Hs : statusCode r = 200) by (vm_compute in Hrun; injection Hrun as _ <- _; reflexivity).
  destruct (fetch_all_200_records (fresh_world session_warrant) session_warrant 0 w' r tr
              eq_refl Hrun Hs) as (_ & rs & ms & Hr & _ & Hf & _).
  exists w', r, tr, rs. auto.
Defined.

Lemma fetch_all_cold_cache_populates_witness :
  exists w' r tr, fetch_all (fresh_world session_warrant) 0 = (w', r, tr) /\
    w' = mk_world (Some session_warrant) (populate dir_warrant []) /\
    (forall k, r <> fetch_all_error (py_repr k)).
Proof.
  destruct (fetch_all (fresh_world session_warrant) 0) as [[w' r] tr] eqn:Hrun.
  destruct (fetch_all_cold_cache_populates (fresh_world session_warrant) session_warrant 0 0 1000
              w' r tr eq_refl eq_refl eq_refl eq_refl eq_refl Hrun) as (Hw & Hk & _).
  exists w', r, tr. auto.
Defined.


Lemma relogin_reuses_cached_handles_witness :
  let w := mk_world None cache_one in
  exists w1 r1 w2 r2 tr,
    login w (env_with (Ok true)) (Some login_data_real) = (w1, r1) /\ statusCode r1 = 200 /\
    fetch_all w1 0 = (w2, r2, tr) /\
    contract_cache w2 = cache_one /\ ~ In EvContracts tr /\
    (snapshot_batches tr = [] \/ concat (snapshot_batches tr) = collect_contracts cache_one).
Proof.
  intro w.
  destruct (login w (env_with (Ok true)) (Some login_data_real)) as [w1 r1] eqn:Hl.
  assert (Hs : statusCode r1 = 200) by (vm_compute in Hl; injection Hl as _ <-; reflexivity).
  destruct (fetch_all w1 0) as [[w2 r2] tr] eqn:Hrun.
  destruct (relogin_reuses_cached_handles w (env_with (Ok true)) (Some login_data_real) w1 r1 0
              w2 r2 tr ltac:(discriminate) Hl Hs Hrun) as (_ & Hc & Hev & Hb).
  exists w1, r1, w2, r2, tr. auto 7.
Defined.

Lemma quote_argument_checks_witness :
  quote (mk_world None []) (Some "2330") (Some "bond") = err 500 "Shioaji API not initialized" /\
  quote (mk_world (Some session0) []) (Some "2330") (Some "bond") = err 400 "Unsupported type: bond".
Proof.
  split.
  - destruct (quote_argument_checks (mk_world None []) (Some "bond")) as (_ & _ & H).
    apply (proj1 (H "2330" ltac:(discriminate))). reflexivity.
  - destruct (quote_argument_checks (mk_world (Some session0) []) (Some "bond")) as (_ & _ & H).
    apply (proj2 (H "2330" ltac:(discriminate)) session0 "bond");
      [reflexivity | reflexivity | discriminate | discriminate | discriminate].
Defined.

Lemma quote_stock_probe_order_witness :
  let s_oes := mk_session 3 (Ok (0, 1000)) dir_oes snap_exact in
  quote (mk_world (Some session_warrant) []) (Some "03001P") None =
    quote_snapshot session_warrant warrant_tse "TSE_Warrant" "stock" /\
  quote (mk_world (Some s_oes) []) (Some "O5") None =
    quote_snapshot s_oes (stock_contract 2 "O" 5) "OTC" "stock" /\
  quote (mk_world (Some s_oes) []) (Some "E1") (Some "stock") =
    quote_snapshot s_oes (stock_contract 9 "E" 1) "OES" "stock" /\
  quote (mk_world (Some s_oes) []) (Some "Z9") None = err 500 "Contract not found for code=Z9" /\
  (getitem (d_TSE dir_oes) "E1" = None /\ getitem (d_OTC dir_oes) "E1" = None).
Proof.
  intro s_oes.
  split; [| split; [| split; [| split]]].
  - exact (proj1 (quote_stock_probe_order (mk_world (Some session_warrant) []) session_warrant
                    "03001P" None warrant_tse eq_refl ltac:(discriminate) (or_introl eq_refl))
                 eq_refl).
  - exact (proj1 (proj2 (quote_stock_probe_order (mk_world (Some s_oes) []) s_oes
                           "O5" None (stock_contract 2 "O" 5) eq_refl ltac:(discriminate)
                           (or_introl eq_refl)))
                 eq_refl eq_refl).
  - exact (proj1 (proj2 (proj2 (quote_stock_probe_order (mk_world (Some s_oes) []) s_oes
                                  "E1" (Some "stock") (stock_contract 9 "E" 1) eq_refl
                                  ltac:(discriminate) (or_intror eq_refl))))
                 [stock_contract 9 "E" 1] eq_refl eq_refl eq_refl eq_refl).
  - apply (proj1 (proj2 (proj2 (proj2 (quote_stock_probe_order (mk_world (Some s_oes) []) s_oes
                                         "Z9" None (stock_contract 9 "E" 1) eq_refl
                                         ltac:(discriminate) (or_introl eq_refl))))));
      [reflexivity | reflexivity | intros oes Hoes; injection Hoes as <-; reflexivity].
  - exact (proj2 (proj2 (proj2 (proj2 (quote_stock_probe_order (mk_world (Some s_oes) []) s_oes
                                         "E1" None (stock_contract 9 "E" 1) eq_refl
                                         ltac:(discriminate) (or_introl eq_refl)))))
                 (stock_contract 9 "E" 1) "OES" eq_refl (or_introl eq_refl)).
Defined.


Lemma quote_snapshot_outcome_witness :
  quote_snapshot session0 warrant_tse "TSE_Warrant" "stock" =
  mk_response 200 (BQuote (snapshot_of (VContract warrant_tse)) "TSE_Warrant" "stock").
Proof.
  destruct (quote_snapshot_outcome session0 warrant_tse "TSE_Warrant" "stock") as [_ H].
  apply H. exists []. split; [reflexivity | split; discriminate].
Defined.
